(** * select_submatrix_smt_gradient.py: the SMT block-selection driver

    A shallow embedding of [main] and [save_selected_submatrix] of
    [select_submatrix_smt_gradient.py].  The script is glue over external
    collaborators (TRL's parser, the model utilities, [SMTTrainer],
    [select_submatrix], the profiler, [json] and the file system), so the
    embedding keeps every collaborator abstract: a call to one of them is
    a transformer of an opaque world that either returns or raises, and
    every call that [main] makes is recorded, with the world it was made
    in, its arguments and its outcome, in a trace. *)

From Stdlib Require Import ZArith Ascii String SpecFloat DecimalString.
From stdpp Require Import base tactics option list strings gmap.

Local Open Scope string_scope.
Local Open Scope list_scope.

(** ** Python values used by the script *)

Module Py.

(** A [dict]: Python dictionaries keep insertion order, and their keys are
    pairwise distinct, so a dictionary is the list of its items in
    insertion order. *)
Abbreviation dict K V := (list (K * V)%type) (only parsing).

Definition keys {K V} (d : dict K V) : list K := d.*1.
Definition values {K V} (d : dict K V) : list V := d.*2.

(** [d.items()] *)
Definition items {K V} (d : dict K V) : list (K * V) := d.

(** [d.get(k)] *)
Fixpoint get {K V} `{EqDecision K} (d : dict K V) (k : K) : option V :=
  match d with
  | [] => None
  | (k', v') :: d' => if decide (k' = k) then Some v' else get d' k
  end.

(** [d[k] = v]: an existing key keeps its position and takes the new value,
    a new key goes last. *)
Fixpoint setitem {K V} `{EqDecision K} (d : dict K V) (k : K) (v : V)
    : dict K V :=
  match d with
  | [] => [(k, v)]
  | (k', v') :: d' =>
      if decide (k' = k) then (k', v) :: d' else (k', v') :: setitem d' k v
  end.

(** Storing a list of items, in order, into a dictionary. *)
Definition update {K V} `{EqDecision K} (d : dict K V) (kvs : list (K * V))
    : dict K V :=
  fold_left (fun acc kv => setitem acc kv.1 kv.2) kvs d.

(** The display [{k1: v1, ..., kn: vn}]. *)
Definition display {K V} `{EqDecision K} (kvs : list (K * V)) : dict K V :=
  update [] kvs.

(** The comprehension [{f(k): v for k, v in d.items()}]: the items are
    visited in order and stored one by one into a fresh dictionary. *)
Definition comprehension {K K' V} `{EqDecision K'}
    (f : K -> K') (d : dict K V) : dict K' V :=
  update [] (map (fun kv => (f kv.1, kv.2)) (items d)).

(** A well-formed dictionary has no repeated key. *)
Definition wf {K V} (d : dict K V) : Prop := NoDup (keys d).

(** [str(s)] of a [str] is [s] itself. *)
Definition str_str (s : string) : string := s.

(** [os.path.join(a, b)] (posixpath, two arguments). *)
Definition startswith_sep (s : string) : bool :=
  match s with
  | String c _ => bool_decide (c = "/"%char)
  | EmptyString => false
  end.

Fixpoint endswith_sep (s : string) : bool :=
  match s with
  | EmptyString => false
  | String c EmptyString => bool_decide (c = "/"%char)
  | String _ s' => endswith_sep s'
  end.

Definition path_join (a b : string) : string :=
  if startswith_sep b then b
  else if bool_decide (a = EmptyString) || endswith_sep a then a +:+ b
  else a +:+ "/" +:+ b.

(** Python floats, as IEEE 754 values; [x >= 0] and [x < 0] compare a float
    with the integer zero, which is exact. *)
Definition float : Type := spec_float.
Definition zero : float := S754_zero false.
Definition ge_zero (x : float) : bool := SFleb zero x.
Definition lt_zero (x : float) : bool := SFltb x zero.

(** Hashable keys whose [str] collide: Python integers and strings. *)
Inductive key : Type :=
| KInt (z : Z)
| KStr (s : string).

#[global] Instance key_eq_dec : EqDecision key.
Proof. solve_decision. Defined.

(** [str(k)]: the decimal numeral of an [int], a [str] unchanged. *)
Definition str (k : key) : string :=
  match k with
  | KInt z => NilZero.string_of_int (Z.to_int z)
  | KStr s => s
  end.

End Py.

(** ** Declarations imported by the script *)

(** Modelled from the spec: [libs.block_libs.types_and_structs.ModuleType]
    is declared outside this file; the script names its members [MLP] and
    [ATTENTION], the two kinds of weight sub-blocks of the spec. *)
Inductive ModuleType : Type :=
| MLP
| ATTENTION.

#[global] Instance ModuleType_eq_dec : EqDecision ModuleType.
Proof. solve_decision. Defined.

(** Modelled from the spec: [smt.trainers.smt_trainer.SMTTrainerMode] is
    declared outside this file.  The script names the member
    [SelectSubmatrixMode], the spec's "observe gradients" mode; the spec's
    other mode, "train only selected blocks", is [TrainSelectedBlocksMode]
    here. *)
Inductive SMTTrainerMode : Type :=
| SelectSubmatrixMode
| TrainSelectedBlocksMode.

#[global] Instance SMTTrainerMode_eq_dec : EqDecision SMTTrainerMode.
Proof. solve_decision. Defined.

(** The three argument classes handed to [TrlParser]. *)
Inductive ArgClass : Type :=
| cls_ScriptArguments
| cls_PeftConfig
| cls_ModelConfig.

(** The attributes of the parsed arguments that the script reads. *)
Record ScriptArguments : Type := {
  dataset_name : string;
  dataset_config : option string;
  dataset_train_split : string
}.

Record PeftConfig : Type := {
  seed : Z;
  test_set_percentage : Py.float;
  downsample_mlp_blocks_ratio : Py.float;
  downsample_attention_blocks_ratio : Py.float;
  enable_analysis : bool;
  output_dir : string
}.

Record ModelConfig : Type := {
  model_name_or_path : option string;
  model_revision : string;
  trust_remote_code : bool;
  attn_implementation : option string;
  torch_dtype : option string
}.

(** The values stored in [model_kwargs]. *)
Inductive kwarg : Type :=
| KwStr (s : string)
| KwOptStr (s : option string)
| KwBool (b : bool).

(** The opaque objects of the collaborators. [World] is everything they can
    read or change: the model's weights, the trainer's state, the files. *)
Record Externals : Type := {
  World : Type;
  TrlParser : Type;
  Tokenizer : Type;
  Model : Type;
  DatasetDict : Type;
  Dataset : Type;
  FlopsProfiler : Type;
  Callback : Type;
  SMTTrainer : Type;
  TrainerState : Type;
  Grads : Type;
  Seconds : Type;
  File : Type;
  Exception : Type;
  Key : Type;
  Value : Type
}.

(** ** Calls, outcomes and traces *)

Section Script.
Context {U : Externals}.

(** A call either returns a value or raises. *)
Inductive Outcome (A : Type) : Type :=
| Returned (a : A)
| Raised (e : Exception U).
#[global] Arguments Returned {A} a.
#[global] Arguments Raised {A} e.

(** The messages passed to [logger.info]. *)
Inductive LogMsg : Type :=
| LogScriptArguments (a : ScriptArguments)
| LogTrainingArguments (a : PeftConfig)
| LogModelArguments (a : ModelConfig)
| LogModelKwargs (kw : Py.dict string kwarg)
| LogMlpRatio (r : Py.float)
| LogAttentionRatio (r : Py.float)
| LogStartingTraining
| LogTrainingCompleted
| LogSelectingSubmatrix
| LogSelectedMlp (d : Py.dict (Key U) (Value U))
| LogSelectedAttention (d : Py.dict (Key U) (Value U))
| LogSaved (path : string).

(** The calls [main] and [save_selected_submatrix] make, with the
    arguments they pass. *)
Inductive Call : Type :=
| CTrlParser (classes : list ArgClass)
| Cparse_args_and_config (parser : TrlParser U)
| Clogger_info (msg : LogMsg)
| Cload_and_configure_tokenizer (model_args : ModelConfig)
| Cinitialize_model (name : option string) (kwargs : Py.dict string kwarg)
| Cprepare_datasets (name : string) (config : option string)
    (train_split : string) (seed : Z) (test_set_percentage : Py.float)
| CFlopsProfiler (model : Model U)
| Cstart_profile (p : FlopsProfiler U)
| Cgetitem (d : DatasetDict U) (key : string)
| CGPUMemoryStatsCallback
| CSMTTrainer (model : Model U) (args : PeftConfig)
    (train_dataset eval_dataset : Dataset U) (processing_class : Tokenizer U)
    (mode : SMTTrainerMode) (callbacks : list (Callback U))
| Cmemory_stats
| Ctrain (trainer : SMTTrainer U)
| Cselect_submatrix (model : Model U) (grads : Grads U) (global_step : Z)
    (enable_analysis : bool) (output_dir : string) (ratio : Py.float)
    (module_type : ModuleType)
| Copen (path : string) (mode : string)
| Cjson_dump (obj : Py.dict string (Py.dict string (Value U))) (f : File U)
    (separators : string * string) (indent : option nat)
| Cclose (f : File U)
| Cstop_profile (p : FlopsProfiler U)
| Clog_training_metrics (state : TrainerState U) (time : Seconds U)
    (p : FlopsProfiler U).

(** What a call returned. *)
Inductive Result : Type :=
| RNone
| RParser (p : TrlParser U)
| RArgs (a : ScriptArguments * PeftConfig * ModelConfig)
| RTokenizer (t : Tokenizer U)
| RModel (m : Model U)
| RDatasetDict (d : DatasetDict U)
| RDataset (d : Dataset U)
| RProfiler (p : FlopsProfiler U)
| RCallback (c : Callback U)
| RTrainer (t : SMTTrainer U)
| RSelected (d : Py.dict (Key U) (Value U))
| RFile (f : File U).

(** One entry of the trace: the world in which the call was made, the
    call, and how it ended. *)
Record Entry : Type := {
  pre : World U;
  call : Call;
  outcome : Outcome Result
}.

Local Abbreviation Trace := (list Entry).

(** ** The collaborators *)

(** An external function: it may change the world, and returns or raises. *)
Definition Ext (A : Type) : Type := World U -> World U * Outcome A.

Record Collaborators : Type := {
  ext_TrlParser : list ArgClass -> Ext (TrlParser U);
  ext_parse_args_and_config :
    TrlParser U -> Ext (ScriptArguments * PeftConfig * ModelConfig);
  ext_load_and_configure_tokenizer : ModelConfig -> Ext (Tokenizer U);
  ext_initialize_model :
    option string -> Py.dict string kwarg -> Ext (Model U);
  ext_prepare_datasets :
    string -> option string -> string -> Z -> Py.float -> Ext (DatasetDict U);
  ext_FlopsProfiler : Model U -> Ext (FlopsProfiler U);
  ext_start_profile : FlopsProfiler U -> Ext unit;
  ext_getitem : DatasetDict U -> string -> Ext (Dataset U);
  ext_GPUMemoryStatsCallback : Ext (Callback U);
  ext_SMTTrainer :
    Model U -> PeftConfig -> Dataset U -> Dataset U -> Tokenizer U ->
    SMTTrainerMode -> list (Callback U) -> Ext (SMTTrainer U);
  ext_memory_stats : Ext unit;
  ext_train : SMTTrainer U -> Ext unit;
  ext_select_submatrix :
    Model U -> Grads U -> Z -> bool -> string -> Py.float -> ModuleType ->
    Ext (Py.dict (Key U) (Value U));
  ext_open : string -> string -> Ext (File U);
  ext_json_dump :
    Py.dict string (Py.dict string (Value U)) -> File U ->
    string * string -> option nat -> Ext unit;
  ext_close : File U -> Ext unit;
  ext_stop_profile : FlopsProfiler U -> Ext unit;
  ext_log_training_metrics :
    TrainerState U -> Seconds U -> FlopsProfiler U -> Ext unit;
  (** attributes of the trainer, read in the current world *)
  attr_warmup_mlp_grads : SMTTrainer U -> World U -> Grads U;
  attr_warmup_attention_grads : SMTTrainer U -> World U -> Grads U;
  attr_state : SMTTrainer U -> World U -> TrainerState U;
  attr_global_step : TrainerState U -> World U -> Z;
  attr_sum_training_step_time : SMTTrainer U -> World U -> Seconds U;
  (** [str] on the keys [select_submatrix] produces *)
  ext_str : Key U -> string
}.

(** ** The script's monad: world passing, a trace, exceptions *)

Definition M (A : Type) : Type := World U -> World U * Trace * Outcome A.

Definition ret {A} (a : A) : M A := fun w => (w, [], Returned a).

Definition bind {A B} (m : M A) (k : A -> M B) : M B :=
  fun w =>
    let '(w1, t1, o1) := m w in
    match o1 with
    | Returned a => let '(w2, t2, o2) := k a w1 in (w2, t1 ++ t2, o2)
    | Raised e => (w1, t1, Raised e)
    end.

(** Performing a call: it is recorded together with its outcome. *)
Definition perform {A} (c : Call) (inj : A -> Result) (f : Ext A) : M A :=
  fun w =>
    let '(w1, o) := f w in
    match o with
    | Returned a =>
        (w1, [{| pre := w; call := c; outcome := Returned (inj a) |}],
         Returned a)
    | Raised e =>
        (w1, [{| pre := w; call := c; outcome := Raised e |}], Raised e)
    end.

(** Reading an attribute in the current world. *)
Definition read {A} (f : World U -> A) : M A := fun w => (w, [], Returned (f w)).

(** [logger.info(msg)]: a record in the trace; logging does not raise. *)
Definition logger_info (msg : LogMsg) : M unit :=
  fun w =>
    (w, [{| pre := w; call := Clogger_info msg; outcome := Returned RNone |}],
     Returned tt).

(** [try: body finally: cleanup], as the [with] statement runs a context
    manager's exit: the cleanup always runs, and its own exception, if
    any, replaces the outcome of the body. *)
Definition finally {A} (body : M A) (cleanup : M unit) : M A :=
  fun w =>
    let '(w1, t1, o1) := body w in
    let '(w2, t2, o2) := cleanup w1 in
    (w2, t1 ++ t2,
     match o2 with
     | Raised e => Raised e
     | Returned _ => o1
     end).

End Script.

#[global] Arguments Outcome U A : clear implicits.
#[global] Arguments LogMsg U : clear implicits.
#[global] Arguments Call U : clear implicits.
#[global] Arguments Result U : clear implicits.
#[global] Arguments Entry U : clear implicits.
Abbreviation Trace U := (list (Entry U)) (only parsing).
#[global] Arguments Ext U A : clear implicits.
#[global] Arguments Collaborators U : clear implicits.
#[global] Arguments M U A : clear implicits.

Declare Scope script_scope.
Delimit Scope script_scope with script.
Notation "'let*' x ':=' m 'in' k" := (bind m (fun x => k))
  (at level 10, x pattern, m at level 100, k at level 200) : script_scope.
Notation "m ;; k" := (bind m (fun _ => k))
  (at level 100, k at level 200, only parsing, right associativity)
  : script_scope.

(** ** The script *)

Section Main.
Context {U : Externals} (env : Collaborators U).
Local Open Scope script_scope.

(** The collaborators' functions, as the script calls them. *)
Definition TrlParser_ (classes : list ArgClass) : M U (TrlParser U) :=
  perform (CTrlParser classes) RParser (ext_TrlParser env classes).

Definition parse_args_and_config (parser : TrlParser U)
    : M U (ScriptArguments * PeftConfig * ModelConfig) :=
  perform (Cparse_args_and_config parser) RArgs
    (ext_parse_args_and_config env parser).

Definition load_and_configure_tokenizer (model_args : ModelConfig)
    : M U (Tokenizer U) :=
  perform (Cload_and_configure_tokenizer model_args) RTokenizer
    (ext_load_and_configure_tokenizer env model_args).

Definition initialize_model (name : option string)
    (kwargs : Py.dict string kwarg) : M U (Model U) :=
  perform (Cinitialize_model name kwargs) RModel
    (ext_initialize_model env name kwargs).

Definition prepare_datasets (name : string) (config : option string)
    (train_split : string) (sd : Z) (pct : Py.float) : M U (DatasetDict U) :=
  perform (Cprepare_datasets name config train_split sd pct) RDatasetDict
    (ext_prepare_datasets env name config train_split sd pct).

Definition FlopsProfiler_ (model : Model U) : M U (FlopsProfiler U) :=
  perform (CFlopsProfiler model) RProfiler (ext_FlopsProfiler env model).

Definition start_profile (p : FlopsProfiler U) : M U unit :=
  perform (Cstart_profile p) (fun _ => RNone) (ext_start_profile env p).

Definition getitem (d : DatasetDict U) (key : string) : M U (Dataset U) :=
  perform (Cgetitem d key) RDataset (ext_getitem env d key).

Definition GPUMemoryStatsCallback : M U (Callback U) :=
  perform CGPUMemoryStatsCallback RCallback (ext_GPUMemoryStatsCallback env).

Definition SMTTrainer_ (model : Model U) (args : PeftConfig)
    (train_dataset eval_dataset : Dataset U) (processing_class : Tokenizer U)
    (mode : SMTTrainerMode) (callbacks : list (Callback U))
    : M U (SMTTrainer U) :=
  perform
    (CSMTTrainer model args train_dataset eval_dataset processing_class mode
       callbacks)
    RTrainer
    (ext_SMTTrainer env model args train_dataset eval_dataset processing_class
       mode callbacks).

Definition memory_stats : M U unit :=
  perform Cmemory_stats (fun _ => RNone) (ext_memory_stats env).

Definition train (trainer : SMTTrainer U) : M U unit :=
  perform (Ctrain trainer) (fun _ => RNone) (ext_train env trainer).

Definition select_submatrix (model : Model U) (grads : Grads U)
    (global_step : Z) (analysis : bool) (dir : string) (ratio : Py.float)
    (module_type : ModuleType) : M U (Py.dict (Key U) (Value U)) :=
  perform
    (Cselect_submatrix model grads global_step analysis dir ratio module_type)
    RSelected
    (ext_select_submatrix env model grads global_step analysis dir ratio
       module_type).

Definition open (path mode : string) : M U (File U) :=
  perform (Copen path mode) RFile (ext_open env path mode).

Definition json_dump (obj : Py.dict string (Py.dict string (Value U)))
    (f : File U) (separators : string * string) (indent : option nat)
    : M U unit :=
  perform (Cjson_dump obj f separators indent) (fun _ => RNone)
    (ext_json_dump env obj f separators indent).

Definition close (f : File U) : M U unit :=
  perform (Cclose f) (fun _ => RNone) (ext_close env f).

Definition stop_profile (p : FlopsProfiler U) : M U unit :=
  perform (Cstop_profile p) (fun _ => RNone) (ext_stop_profile env p).

Definition log_training_metrics (state : TrainerState U) (time : Seconds U)
    (p : FlopsProfiler U) : M U unit :=
  perform (Clog_training_metrics state time p) (fun _ => RNone)
    (ext_log_training_metrics env state time p).

(** [with open(path, mode) as f: body] *)
Definition with_open {A} (path mode : string) (body : File U -> M U A)
    : M U A :=
  let* f := open path mode in
  finally (body f) (close f).

(** [save_selected_submatrix] (lines 105-121). *)
Definition save_selected_submatrix
    (selected_mlp_submatrix selected_attention_submatrix
       : Py.dict (Key U) (Value U))
    (submatrix_file_path : string) : M U unit :=
  let combined :=
    Py.display
      [("selected_mlp_submatrix",
        Py.comprehension (ext_str env) selected_mlp_submatrix);
       ("selected_attention_submatrix",
        Py.comprehension (ext_str env) selected_attention_submatrix)] in
  with_open submatrix_file_path "w" (fun f =>
    json_dump (Py.comprehension Py.str_str combined) f (",", ":") None).

(** [main] (lines 16-102). *)
Definition main : M U unit :=
  (* Parse arguments *)
  let* parser :=
    TrlParser_ [cls_ScriptArguments; cls_PeftConfig; cls_ModelConfig] in
  let* (script_args, training_args, model_args) :=
    parse_args_and_config parser in
  logger_info (LogScriptArguments script_args) ;;
  logger_info (LogTrainingArguments training_args) ;;
  logger_info (LogModelArguments model_args) ;;
  (* Model configuration *)
  let model_kwargs :=
    Py.display
      [("revision", KwStr (model_revision model_args));
       ("trust_remote_code", KwBool (trust_remote_code model_args));
       ("attn_implementation", KwOptStr (attn_implementation model_args));
       ("torch_dtype", KwOptStr (torch_dtype model_args));
       ("device_map", KwStr "auto")] in
  logger_info (LogModelKwargs model_kwargs) ;;
  logger_info (LogMlpRatio (downsample_mlp_blocks_ratio training_args)) ;;
  logger_info
    (LogAttentionRatio (downsample_attention_blocks_ratio training_args)) ;;
  (* Initialize components *)
  let* tokenizer := load_and_configure_tokenizer model_args in
  let* model :=
    initialize_model (model_name_or_path model_args) model_kwargs in
  let* datasets :=
    prepare_datasets (dataset_name script_args) (dataset_config script_args)
      (dataset_train_split script_args) (seed training_args)
      (test_set_percentage training_args) in
  let* flops_profiler := FlopsProfiler_ model in
  start_profile flops_profiler ;;
  (* Initialize trainer *)
  let* train_dataset := getitem datasets "train" in
  let* eval_dataset := getitem datasets "test" in
  let* callback := GPUMemoryStatsCallback in
  let* trainer :=
    SMTTrainer_ model training_args train_dataset eval_dataset tokenizer
      SelectSubmatrixMode [callback] in
  (* Log initial memory stats *)
  memory_stats ;;
  (* Start training *)
  logger_info LogStartingTraining ;;
  train trainer ;;
  memory_stats ;;
  logger_info LogTrainingCompleted ;;
  logger_info LogSelectingSubmatrix ;;
  let* selected_mlp_submatrix :=
    if Py.ge_zero (downsample_mlp_blocks_ratio training_args) then
      let* grads := read (attr_warmup_mlp_grads env trainer) in
      let* state := read (attr_state env trainer) in
      let* global_step := read (attr_global_step env state) in
      select_submatrix model grads global_step
        (enable_analysis training_args) (output_dir training_args)
        (downsample_mlp_blocks_ratio training_args) MLP
    else ret [] in
  logger_info (LogSelectedMlp selected_mlp_submatrix) ;;
  let* selected_attention_submatrix :=
    if Py.ge_zero (downsample_attention_blocks_ratio training_args) then
      let* grads := read (attr_warmup_attention_grads env trainer) in
      let* state := read (attr_state env trainer) in
      let* global_step := read (attr_global_step env state) in
      select_submatrix model grads global_step
        (enable_analysis training_args) (output_dir training_args)
        (downsample_attention_blocks_ratio training_args) ATTENTION
    else ret [] in
  logger_info (LogSelectedAttention selected_attention_submatrix) ;;
  let submatrix_file_path :=
    Py.path_join (output_dir training_args) "selected_blocks.json" in
  save_selected_submatrix selected_mlp_submatrix selected_attention_submatrix
    submatrix_file_path ;;
  logger_info (LogSaved submatrix_file_path) ;;
  stop_profile flops_profiler ;;
  let* state := read (attr_state env trainer) in
  let* time := read (attr_sum_training_step_time env trainer) in
  log_training_metrics state time flops_profiler.

End Main.

(** ** Runs and what a trace shows *)

Section Observations.
Context {U : Externals}.

(** The three components of a run from a given world. *)
Definition trace_of {A} (m : M U A) (w : World U) : Trace U := (m w).1.2.
Definition outcome_of {A} (m : M U A) (w : World U) : Outcome U A := (m w).2.
Definition world_after {A} (m : M U A) (w : World U) : World U := (m w).1.1.

(** The arguments the parser returned, the model and the trainer built. *)
Definition parsed_args (t : Trace U)
    : option (ScriptArguments * PeftConfig * ModelConfig) :=
  head (omap (fun e =>
    match call e, outcome e with
    | Cparse_args_and_config _, Returned (RArgs a) => Some a
    | _, _ => None
    end) t).

Definition built_model (t : Trace U) : option (Model U) :=
  head (omap (fun e =>
    match call e, outcome e with
    | Cinitialize_model _ _, Returned (RModel m) => Some m
    | _, _ => None
    end) t).

Definition built_trainer (t : Trace U) : option (SMTTrainer U) :=
  head (omap (fun e =>
    match call e, outcome e with
    | CSMTTrainer _ _ _ _ _ _ _, Returned (RTrainer x) => Some x
    | _, _ => None
    end) t).

(** Is the call an invocation of [select_submatrix] for this module type? *)
Definition selects (mt : ModuleType) (c : Call U) : bool :=
  match c, mt with
  | Cselect_submatrix _ _ _ _ _ _ MLP, MLP => true
  | Cselect_submatrix _ _ _ _ _ _ ATTENTION, ATTENTION => true
  | _, _ => false
  end.

(** The entries that are invocations of [select_submatrix]. *)
Definition selections (t : Trace U) : list (Entry U) :=
  omap (fun e =>
    match call e with
    | Cselect_submatrix _ _ _ _ _ _ _ => Some e
    | _ => None
    end) t.

(** The mapping [select_submatrix] returned for a module type, if it was
    invoked for it and returned. *)
Definition selection_returned (mt : ModuleType) (t : Trace U)
    : option (Py.dict (Key U) (Value U)) :=
  head (omap (fun e =>
    match outcome e with
    | Returned (RSelected d) => if selects mt (call e) then Some d else None
    | _ => None
    end) t).

(** The value of [selected_mlp_submatrix] / [selected_attention_submatrix]
    once the selection is over: the returned mapping, or the initial [{}]. *)
Definition selected (mt : ModuleType) (t : Trace U)
    : Py.dict (Key U) (Value U) :=
  default [] (selection_returned mt t).

(** The files opened and the objects handed to [json.dump]. *)
Definition opens (t : Trace U) : list (string * string) :=
  omap (fun e =>
    match call e with
    | Copen path mode => Some (path, mode)
    | _ => None
    end) t.

Definition dumps (t : Trace U)
    : list (Py.dict string (Py.dict string (Value U)) * File U
            * (string * string) * option nat) :=
  omap (fun e =>
    match call e with
    | Cjson_dump obj f sep ind => Some (obj, f, sep, ind)
    | _ => None
    end) t.

(** The files [open] returned. *)
Definition opened_files (t : Trace U) : list (File U) :=
  omap (fun e =>
    match call e, outcome e with
    | Copen _ _, Returned (RFile f) => Some f
    | _, _ => None
    end) t.

(** The modes a call passes on. *)
Definition modes_passed (c : Call U) : list SMTTrainerMode :=
  match c with
  | CSMTTrainer _ _ _ _ _ mode _ => [mode]
  | _ => []
  end.

Definition constructs_trainer (c : Call U) : bool :=
  match c with
  | CSMTTrainer _ _ _ _ _ _ _ => true
  | _ => false
  end.

Definition trains (c : Call U) : bool :=
  match c with
  | Ctrain _ => true
  | _ => false
  end.

(** How many calls of a trace satisfy a test. *)
Definition count_calls (p : Call U -> bool) (t : Trace U) : nat :=
  length (List.filter (fun e => p (call e)) t).

Definition is_selection (c : Call U) : bool :=
  match c with
  | Cselect_submatrix _ _ _ _ _ _ _ => true
  | _ => false
  end.

(** The log line that opens the selection stage. *)
Definition announces_selection (c : Call U) : bool :=
  match c with
  | Clogger_info LogSelectingSubmatrix => true
  | _ => false
  end.

Definition is_returned {A} (o : Outcome U A) : bool :=
  match o with
  | Returned _ => true
  | Raised _ => false
  end.

(** Scanning a trace: is every invocation of [select_submatrix] preceded by
    a call of [train] that returned?  [trained] tells whether such a call
    has been seen. *)
Fixpoint selections_follow_training (trained : bool) (t : Trace U) : bool :=
  match t with
  | [] => true
  | e :: t' =>
      if is_selection (call e)
      then trained && selections_follow_training trained t'
      else selections_follow_training
             (trained || (trains (call e) && is_returned (outcome e))) t'
  end.

(** The stages of the script, in the order the spec lists them. *)
Inductive Stage : Type :=
| ArgumentParsing
| Construction
| TrainerInstantiation
| Training
| Selection
| Serialization.

Definition script_stages : list Stage :=
  [ArgumentParsing; Construction; TrainerInstantiation; Training; Selection;
   Serialization].

Definition stage_of (c : Call U) : option Stage :=
  match c with
  | CTrlParser _ | Cparse_args_and_config _ => Some ArgumentParsing
  | Cload_and_configure_tokenizer _ | Cinitialize_model _ _
  | Cprepare_datasets _ _ _ _ _ => Some Construction
  | CSMTTrainer _ _ _ _ _ _ _ => Some TrainerInstantiation
  | Ctrain _ => Some Training
  | Cselect_submatrix _ _ _ _ _ _ _ => Some Selection
  | Copen _ _ | Cjson_dump _ _ _ _ | Cclose _ => Some Serialization
  | _ => None
  end.

Definition stages (t : Trace U) : list Stage :=
  omap (fun e => stage_of (call e)) t.

End Observations.

#[global] Instance Stage_eq_dec : EqDecision Stage.
Proof. solve_decision. Defined.

(** Runs of equal consecutive stages merged into one: the sequence of
    stages entered. *)
Fixpoint entered (l : list Stage) : list Stage :=
  match l with
  | [] => []
  | s :: l' =>
      match l' with
      | s' :: _ => if decide (s = s') then entered l' else s :: entered l'
      | [] => [s]
      end
  end.

(** The gradients, the ratio and the JSON key that belong to a module
    type. *)
Definition warmup_grads {U} (env : Collaborators U) (mt : ModuleType)
    (trainer : SMTTrainer U) (w : World U) : Grads U :=
  match mt with
  | MLP => attr_warmup_mlp_grads env trainer w
  | ATTENTION => attr_warmup_attention_grads env trainer w
  end.

Definition downsample_ratio (mt : ModuleType) (a : PeftConfig) : Py.float :=
  match mt with
  | MLP => downsample_mlp_blocks_ratio a
  | ATTENTION => downsample_attention_blocks_ratio a
  end.

Definition json_key (mt : ModuleType) : string :=
  match mt with
  | MLP => "selected_mlp_submatrix"
  | ATTENTION => "selected_attention_submatrix"
  end.

(** [trainer.state.global_step] in a world. *)
Definition global_step_of {U} (env : Collaborators U) (trainer : SMTTrainer U)
    (w : World U) : Z :=
  attr_global_step env (attr_state env trainer w) w.

(** [select_submatrix] is not handed the trainer; it leaves the trainer's
    step counter as it is. *)
Definition select_submatrix_keeps_step {U} (env : Collaborators U) : Prop :=
  forall model grads step analysis dir ratio mt trainer w,
    global_step_of env trainer
      (ext_select_submatrix env model grads step analysis dir ratio mt w).1
    = global_step_of env trainer w.

(** The items of a mapping with every key [k] replaced by [str(k)]. *)
Definition stringified {U} (env : Collaborators U)
    (d : Py.dict (Key U) (Value U)) : list (string * Value U) :=
  map (fun kv => (ext_str env kv.1, kv.2)) (Py.items d).

(** ** [save_selected_submatrix] over a store of dictionary objects

    Dictionaries are mutable objects: the two arguments of
    [save_selected_submatrix] are references to the dictionaries its caller
    holds.  This second embedding keeps the dictionaries in a store and
    passes references, so that what the function does to its arguments
    can be stated. *)

Module Heap.
Section Heap.
Context {U : Externals} `{EqDecision (Key U)}.

Definition loc : Type := positive.

(** Keys are the collaborators' keys or strings; values are the
    collaborators' values or references to dictionaries. *)
Inductive hkey : Type :=
| HKey (k : Key U)
| HStr (s : string).

Inductive hval : Type :=
| HVal (v : Value U)
| HRef (l : loc).

#[global] Instance hkey_eq_dec : EqDecision hkey.
Proof. solve_decision. Defined.

Local Abbreviation obj := (Py.dict hkey hval).
Local Abbreviation store := (gmap loc obj).

(** The script's monad with a store of dictionaries threaded through; the
    store is kept when an exception is raised. *)
Definition HM (A : Type) : Type :=
  store -> World U -> store * (World U * Trace U * Outcome U A).

Definition hret {A} (a : A) : HM A := fun σ w => (σ, (w, [], Returned a)).

Definition hbind {A B} (m : HM A) (k : A -> HM B) : HM B :=
  fun σ w =>
    let '(σ1, (w1, t1, o1)) := m σ w in
    match o1 with
    | Returned a =>
        let '(σ2, (w2, t2, o2)) := k a σ1 w1 in (σ2, (w2, t1 ++ t2, o2))
    | Raised e => (σ1, (w1, t1, Raised e))
    end.

(** A call to a collaborator: [open], [json.dump] and [close] work on the
    file and leave the dictionaries alone. *)
Definition lift {A} (m : M U A) : HM A := fun σ w => (σ, m w).

Definition hfinally {A} (body : HM A) (cleanup : HM unit) : HM A :=
  fun σ w =>
    let '(σ1, (w1, t1, o1)) := body σ w in
    let '(σ2, (w2, t2, o2)) := cleanup σ1 w1 in
    (σ2, (w2, t1 ++ t2,
          match o2 with
          | Raised e => Raised e
          | Returned _ => o1
          end)).

(** [{}]: a new, empty dictionary. *)
Definition new_dict : HM loc :=
  fun σ w =>
    let l := fresh (dom σ) in (<[l := []]> σ, (w, [], Returned l)).

(** [d.items()] *)
Definition hitems (l : loc) : HM (list (hkey * hval)) :=
  fun σ w => (σ, (w, [], Returned (default [] (σ !! l)))).

(** [d[k] = v] *)
Definition hsetitem (l : loc) (k : hkey) (v : hval) : HM unit :=
  fun σ w => (alter (fun d => Py.setitem d k v) l σ, (w, [], Returned tt)).

(** [for x in xs: body(x)] *)
Fixpoint hfor {A} (xs : list A) (body : A -> HM unit) : HM unit :=
  match xs with
  | [] => hret tt
  | x :: xs' => hbind (body x) (fun _ => hfor xs' body)
  end.

(** [{f(k): v for k, v in d.items()}] *)
Definition hcomprehension (f : hkey -> hkey) (l : loc) : HM loc :=
  hbind new_dict (fun l' =>
  hbind (hitems l) (fun kvs =>
  hbind (hfor kvs (fun kv => hsetitem l' (f kv.1) kv.2)) (fun _ =>
  hret l'))).

(** [str(k)] *)
Definition hstr (env : Collaborators U) (k : hkey) : hkey :=
  match k with
  | HKey k => HStr (ext_str env k)
  | HStr s => HStr (Py.str_str s)
  end.

(** The object [json.dump] reads through a reference: a dictionary of
    dictionaries. *)
Definition read_inner (d : obj) : Py.dict string (Value U) :=
  omap (fun kv =>
    match kv with
    | (HStr s, HVal v) => Some (s, v)
    | _ => None
    end) d.

Definition read_object (σ : store) (l : loc)
    : Py.dict string (Py.dict string (Value U)) :=
  omap (fun kv =>
    match kv with
    | (HStr s, HRef l') => Some (s, read_inner (default [] (σ !! l')))
    | _ => None
    end) (default [] (σ !! l)).

Definition hjson_dump (env : Collaborators U) (l : loc) (f : File U)
    (separators : string * string) (indent : option nat) : HM unit :=
  fun σ w => (σ, json_dump env (read_object σ l) f separators indent w).

(** [save_selected_submatrix] (lines 105-121), on references. *)
Definition save_selected_submatrix (env : Collaborators U)
    (selected_mlp_submatrix selected_attention_submatrix : loc)
    (submatrix_file_path : string) : HM unit :=
  hbind (hcomprehension (hstr env) selected_mlp_submatrix) (fun d_mlp =>
  hbind (hcomprehension (hstr env) selected_attention_submatrix) (fun d_attn =>
  hbind new_dict (fun combined =>
  hbind (hsetitem combined (HStr "selected_mlp_submatrix") (HRef d_mlp))
    (fun _ =>
  hbind (hsetitem combined (HStr "selected_attention_submatrix") (HRef d_attn))
    (fun _ =>
  hbind (lift (open env submatrix_file_path "w")) (fun f =>
  hfinally
    (hbind (hcomprehension (hstr env) combined) (fun top =>
     hjson_dump env top f (",", ":") None))
    (lift (close env f)))))))).

(** A dictionary of the collaborators, as an object of the store. *)
Definition as_object (d : Py.dict (Key U) (Value U)) : obj :=
  map (fun kv => (HKey kv.1, HVal kv.2)) d.

End Heap.

#[global] Arguments hkey U : clear implicits.
#[global] Arguments hval U : clear implicits.

End Heap.

(** ** A small concrete world

    Opaque objects are units, the world is the trainer's step counter,
    gradients are tagged by their module type, keys are Python integers
    and strings, values are integers. *)

Definition ToyU : Externals := {|
  World := Z;
  TrlParser := unit;
  Tokenizer := unit;
  Model := unit;
  DatasetDict := unit;
  Dataset := string;
  FlopsProfiler := unit;
  Callback := unit;
  SMTTrainer := unit;
  TrainerState := unit;
  Grads := ModuleType;
  Seconds := Z;
  File := string;
  Exception := string;
  Key := Py.key;
  Value := Z
|}.

Definition returns {A} (a : A) : Ext ToyU A := fun w => (w, Returned a).

(** The collaborators: training takes seven steps, [select_submatrix]
    answers from a table. *)
Definition toy_env (args : ScriptArguments * PeftConfig * ModelConfig)
    (table : ModuleType -> Py.dict Py.key Z) : Collaborators ToyU := {|
  ext_TrlParser := fun _ => returns tt;
  ext_parse_args_and_config := fun _ => returns args;
  ext_load_and_configure_tokenizer := fun _ => returns tt;
  ext_initialize_model := fun _ _ => returns tt;
  ext_prepare_datasets := fun _ _ _ _ _ => returns tt;
  ext_FlopsProfiler := fun _ => returns tt;
  ext_start_profile := fun _ => returns tt;
  ext_getitem := fun _ key => returns key;
  ext_GPUMemoryStatsCallback := returns tt;
  ext_SMTTrainer := fun _ _ _ _ _ _ _ => returns tt;
  ext_memory_stats := returns tt;
  ext_train := fun _ w => ((w + 7)%Z, Returned tt);
  ext_select_submatrix := fun _ _ _ _ _ _ mt => returns (table mt);
  ext_open := fun path _ => returns path;
  ext_json_dump := fun _ _ _ _ => returns tt;
  ext_close := fun _ => returns tt;
  ext_stop_profile := fun _ => returns tt;
  ext_log_training_metrics := fun _ _ _ => returns tt;
  attr_warmup_mlp_grads := fun _ _ => MLP;
  attr_warmup_attention_grads := fun _ _ => ATTENTION;
  attr_state := fun _ _ => tt;
  attr_global_step := fun _ w => w;
  attr_sum_training_step_time := fun _ w => w;
  ext_str := Py.str
|}.

Definition half : Py.float := S754_finite false 4503599627370496 (-53).
Definition minus_one : Py.float := S754_finite true 4503599627370496 (-52).

Definition toy_args (mlp_ratio attention_ratio : Py.float)
    : ScriptArguments * PeftConfig * ModelConfig :=
  ({| dataset_name := "data"; dataset_config := None;
      dataset_train_split := "train" |},
   {| seed := 42; test_set_percentage := half;
      downsample_mlp_blocks_ratio := mlp_ratio;
      downsample_attention_blocks_ratio := attention_ratio;
      enable_analysis := false; output_dir := "out" |},
   {| model_name_or_path := Some "model"; model_revision := "main";
      trust_remote_code := false; attn_implementation := None;
      torch_dtype := None |}).

(** Keys with pairwise distinct [str], and keys that collide. *)
Definition toy_table (mt : ModuleType) : Py.dict Py.key Z :=
  match mt with
  | MLP => [(Py.KInt 3, 30%Z); (Py.KInt 1, 10%Z)]
  | ATTENTION => [(Py.KStr "q", 5%Z)]
  end.

Definition colliding_table (mt : ModuleType) : Py.dict Py.key Z :=
  match mt with
  | MLP => [(Py.KInt 1, 10%Z); (Py.KInt 2, 20%Z); (Py.KStr "1", 30%Z)]
  | ATTENTION => []
  end.

(** The runs used as examples: both selections performed, keys colliding
    under [str], both selections skipped. *)
Definition toy : Collaborators ToyU := toy_env (toy_args half half) toy_table.

Definition toy_colliding : Collaborators ToyU :=
  toy_env (toy_args half half) colliding_table.

Definition toy_skipping : Collaborators ToyU :=
  toy_env (toy_args minus_one minus_one) toy_table.

Definition toy_select (mt : ModuleType) : Entry ToyU :=
  @Build_Entry ToyU 7%Z
    (@Cselect_submatrix ToyU tt mt 7%Z false "out" half mt)
    (@Returned ToyU _ (@RSelected ToyU (toy_table mt))).

Definition toy_open : Entry ToyU :=
  @Build_Entry ToyU 7%Z
    (@Copen ToyU "out/selected_blocks.json" "w")
    (@Returned ToyU _ (@RFile ToyU "out/selected_blocks.json")).

Definition toy_dump (obj : Py.dict string (Py.dict string Z)) : Entry ToyU :=
  @Build_Entry ToyU 7%Z
    (@Cjson_dump ToyU obj "out/selected_blocks.json" (",", ":") None)
    (@Returned ToyU _ (@RNone ToyU)).

Definition toy_object : Py.dict string (Py.dict string Z) :=
  [("selected_mlp_submatrix", [("3", 30%Z); ("1", 10%Z)]);
   ("selected_attention_submatrix", [("q", 5%Z)])].

Definition colliding_object : Py.dict string (Py.dict string Z) :=
  [("selected_mlp_submatrix", [("1", 30%Z); ("2", 20%Z)]);
   ("selected_attention_submatrix", [])].

Definition empty_object : Py.dict string (Py.dict string Z) :=
  [("selected_mlp_submatrix", []); ("selected_attention_submatrix", [])].

(** A store holding the two dictionaries of [toy_table]. *)
Definition toy_store : gmap Heap.loc (Py.dict (Heap.hkey ToyU) (Heap.hval ToyU)) :=
  <[2%positive := @Heap.as_object ToyU (toy_table ATTENTION)]>
    (<[1%positive := @Heap.as_object ToyU (toy_table MLP)]> ∅).

(** ** Further observations of a trace *)

Section MoreObservations.
Context {U : Externals}.

(** The calls that returned, each with what it returned. *)
Definition returned (t : Trace U) : list (Call U * Result U) :=
  omap (fun e =>
    match outcome e with
    | Returned r => Some (call e, r)
    | Raised _ => None
    end) t.

(** The exceptions raised, in order. *)
Definition raised (t : Trace U) : list (Exception U) :=
  omap (fun e =>
    match outcome e with
    | Returned _ => None
    | Raised x => Some x
    end) t.

Definition all_returned (t : Trace U) : bool :=
  forallb (fun e => is_returned (outcome e)) t.

(** The files closed. *)
Definition closes (t : Trace U) : list (File U) :=
  omap (fun e =>
    match call e with
    | Cclose f => Some f
    | _ => None
    end) t.

(** The paths announced as saved. *)
Definition saved_logs (t : Trace U) : list string :=
  omap (fun e =>
    match call e with
    | Clogger_info (LogSaved path) => Some path
    | _ => None
    end) t.

(** The profiler built, and the profilers handed to [start_profile],
    [stop_profile] and [log_training_metrics]. *)
Definition built_profiler (t : Trace U) : option (FlopsProfiler U) :=
  head (omap (fun e =>
    match call e, outcome e with
    | CFlopsProfiler _, Returned (RProfiler p) => Some p
    | _, _ => None
    end) t).

Definition profilers_used (t : Trace U) : list (FlopsProfiler U) :=
  omap (fun e =>
    match call e with
    | Cstart_profile p | Cstop_profile p | Clog_training_metrics _ _ p =>
        Some p
    | _ => None
    end) t.

Definition starts_profile (c : Call U) : bool :=
  match c with
  | Cstart_profile _ => true
  | _ => false
  end.

Definition stops_profile (c : Call U) : bool :=
  match c with
  | Cstop_profile _ => true
  | _ => false
  end.

Definition logs_saved (c : Call U) : bool :=
  match c with
  | Clogger_info (LogSaved _) => true
  | _ => false
  end.

Definition logs_metrics (c : Call U) : bool :=
  match c with
  | Clog_training_metrics _ _ _ => true
  | _ => false
  end.

Definition is_memory_stats (c : Call U) : bool :=
  match c with
  | Cmemory_stats => true
  | _ => false
  end.

(** The module types [select_submatrix] is invoked for, in order. *)
Definition selected_types (t : Trace U) : list ModuleType :=
  omap (fun e =>
    match call e with
    | Cselect_submatrix _ _ _ _ _ _ mt => Some mt
    | _ => None
    end) t.

(** The entries that construct the trainer. *)
Definition constructions (t : Trace U) : list (Entry U) :=
  omap (fun e =>
    match call e with
    | CSMTTrainer _ _ _ _ _ _ _ => Some e
    | _ => None
    end) t.

(** The entries of the serialization stage. *)
Definition serialization_entries (t : Trace U) : list (Entry U) :=
  omap (fun e =>
    match stage_of (call e) with
    | Some Serialization => Some e
    | _ => None
    end) t.

(** Scanning a trace: does the run stop at the first call that raises?  The
    one call allowed after it is the [close] that leaves the [with] block
    of a [json.dump] that raised. *)
Fixpoint halts_after_raise (t : Trace U) : bool :=
  match t with
  | [] => true
  | e :: t' =>
      if is_returned (outcome e) then halts_after_raise t'
      else
        match t' with
        | [] => true
        | [c] =>
            match call e, call c with
            | Cjson_dump _ _ _ _, Cclose _ => true
            | _, _ => false
            end
        | _ => false
        end
  end.

End MoreObservations.

(** The toy collaborators with a [json.dump] that raises, and with a
    [select_submatrix] that raises. *)
Definition toy_dump_raises : Collaborators ToyU := {|
  ext_TrlParser := ext_TrlParser toy;
  ext_parse_args_and_config := ext_parse_args_and_config toy;
  ext_load_and_configure_tokenizer := ext_load_and_configure_tokenizer toy;
  ext_initialize_model := ext_initialize_model toy;
  ext_prepare_datasets := ext_prepare_datasets toy;
  ext_FlopsProfiler := ext_FlopsProfiler toy;
  ext_start_profile := ext_start_profile toy;
  ext_getitem := ext_getitem toy;
  ext_GPUMemoryStatsCallback := ext_GPUMemoryStatsCallback toy;
  ext_SMTTrainer := ext_SMTTrainer toy;
  ext_memory_stats := ext_memory_stats toy;
  ext_train := ext_train toy;
  ext_select_submatrix := ext_select_submatrix toy;
  ext_open := ext_open toy;
  ext_json_dump := fun _ _ _ _ w => (w, @Raised ToyU unit "TypeError");
  ext_close := ext_close toy;
  ext_stop_profile := ext_stop_profile toy;
  ext_log_training_metrics := ext_log_training_metrics toy;
  attr_warmup_mlp_grads := attr_warmup_mlp_grads toy;
  attr_warmup_attention_grads := attr_warmup_attention_grads toy;
  attr_state := attr_state toy;
  attr_global_step := attr_global_step toy;
  attr_sum_training_step_time := attr_sum_training_step_time toy;
  ext_str := ext_str toy
|}.

Definition toy_select_raises : Collaborators ToyU := {|
  ext_TrlParser := ext_TrlParser toy;
  ext_parse_args_and_config := ext_parse_args_and_config toy;
  ext_load_and_configure_tokenizer := ext_load_and_configure_tokenizer toy;
  ext_initialize_model := ext_initialize_model toy;
  ext_prepare_datasets := ext_prepare_datasets toy;
  ext_FlopsProfiler := ext_FlopsProfiler toy;
  ext_start_profile := ext_start_profile toy;
  ext_getitem := ext_getitem toy;
  ext_GPUMemoryStatsCallback := ext_GPUMemoryStatsCallback toy;
  ext_SMTTrainer := ext_SMTTrainer toy;
  ext_memory_stats := ext_memory_stats toy;
  ext_train := ext_train toy;
  ext_select_submatrix :=
    fun _ _ _ _ _ _ _ w => (w, @Raised ToyU _ "RuntimeError");
  ext_open := ext_open toy;
  ext_json_dump := ext_json_dump toy;
  ext_close := ext_close toy;
  ext_stop_profile := ext_stop_profile toy;
  ext_log_training_metrics := ext_log_training_metrics toy;
  attr_warmup_mlp_grads := attr_warmup_mlp_grads toy;
  attr_warmup_attention_grads := attr_warmup_attention_grads toy;
  attr_state := attr_state toy;
  attr_global_step := attr_global_step toy;
  attr_sum_training_step_time := attr_sum_training_step_time toy;
  ext_str := ext_str toy
|}.

(** The ratio [nan]. *)
Definition nan : Py.float := S754_nan.

Definition toy_nan : Collaborators ToyU :=
  toy_env (toy_args nan nan) toy_table.

(** A run whose ratios are negative zero and plus infinity. *)
Definition toy_edges : Collaborators ToyU :=
  toy_env (toy_args (S754_zero true) (S754_infinity false)) toy_table.

(** Two entries of the toy run: the construction of the trainer and the
    log line of the MLP selection. *)
Definition toy_construction : Entry ToyU :=
  @Build_Entry ToyU 0%Z
    (@CSMTTrainer ToyU tt (toy_args half half).1.2 "train" "test" tt
       SelectSubmatrixMode [tt])
    (@Returned ToyU _ (@RTrainer ToyU tt)).

Definition toy_log_mlp : Entry ToyU :=
  @Build_Entry ToyU 7%Z
    (@Clogger_info ToyU (@LogSelectedMlp ToyU (toy_table MLP)))
    (@Returned ToyU _ (@RNone ToyU)).

Definition toy_metrics : Entry ToyU :=
  @Build_Entry ToyU 7%Z
    (@Clog_training_metrics ToyU tt 7%Z tt)
    (@Returned ToyU _ (@RNone ToyU)).

(** ** What the collaborators answer *)

Section Answers.
Context {U : Externals}.

Definition lift_outcome {A} (inj : A -> Result U) (o : Outcome U A)
    : Outcome U (Result U) :=
  match o with
  | Returned a => Returned (inj a)
  | Raised x => Raised x
  end.

(** The outcome of a call made in the world [w]: what the collaborator
    called answers there. *)
Definition answer (env : Collaborators U) (c : Call U) (w : World U)
    : Outcome U (Result U) :=
  match c with
  | CTrlParser classes => lift_outcome RParser (ext_TrlParser env classes w).2
  | Cparse_args_and_config parser =>
      lift_outcome RArgs (ext_parse_args_and_config env parser w).2
  | Clogger_info _ => Returned RNone
  | Cload_and_configure_tokenizer model_args =>
      lift_outcome RTokenizer
        (ext_load_and_configure_tokenizer env model_args w).2
  | Cinitialize_model name kwargs =>
      lift_outcome RModel (ext_initialize_model env name kwargs w).2
  | Cprepare_datasets name config train_split sd pct =>
      lift_outcome RDatasetDict
        (ext_prepare_datasets env name config train_split sd pct w).2
  | CFlopsProfiler model =>
      lift_outcome RProfiler (ext_FlopsProfiler env model w).2
  | Cstart_profile p =>
      lift_outcome (fun _ => RNone) (ext_start_profile env p w).2
  | Cgetitem d key => lift_outcome RDataset (ext_getitem env d key w).2
  | CGPUMemoryStatsCallback =>
      lift_outcome RCallback (ext_GPUMemoryStatsCallback env w).2
  | CSMTTrainer model args train_dataset eval_dataset processing_class mode
      callbacks =>
      lift_outcome RTrainer
        (ext_SMTTrainer env model args train_dataset eval_dataset
           processing_class mode callbacks w).2
  | Cmemory_stats => lift_outcome (fun _ => RNone) (ext_memory_stats env w).2
  | Ctrain trainer => lift_outcome (fun _ => RNone) (ext_train env trainer w).2
  | Cselect_submatrix model grads global_step analysis dir ratio mt =>
      lift_outcome RSelected
        (ext_select_submatrix env model grads global_step analysis dir ratio
           mt w).2
  | Copen path mode => lift_outcome RFile (ext_open env path mode w).2
  | Cjson_dump obj f separators indent =>
      lift_outcome (fun _ => RNone)
        (ext_json_dump env obj f separators indent w).2
  | Cclose f => lift_outcome (fun _ => RNone) (ext_close env f w).2
  | Cstop_profile p =>
      lift_outcome (fun _ => RNone) (ext_stop_profile env p w).2
  | Clog_training_metrics state time p =>
      lift_outcome (fun _ => RNone)
        (ext_log_training_metrics env state time p w).2
  end.

(** No collaborator raises, whatever it is called with. *)
Definition never_raises (env : Collaborators U) : Prop :=
  forall c w, is_returned (answer env c w) = true.

End Answers.

(** The strings of a list in the order in which they first occur. *)
Fixpoint first_occurrences {A} `{EqDecision A} (l : list A) : list A :=
  match l with
  | [] => []
  | x :: l' =>
      x :: List.filter (fun y => negb (bool_decide (y = x)))
             (first_occurrences l')
  end.

(** The toy collaborators with a [select_submatrix] that advances the
    trainer's step counter. *)
Definition toy_bumping : Collaborators ToyU := {|
  ext_TrlParser := ext_TrlParser toy;
  ext_parse_args_and_config := ext_parse_args_and_config toy;
  ext_load_and_configure_tokenizer := ext_load_and_configure_tokenizer toy;
  ext_initialize_model := ext_initialize_model toy;
  ext_prepare_datasets := ext_prepare_datasets toy;
  ext_FlopsProfiler := ext_FlopsProfiler toy;
  ext_start_profile := ext_start_profile toy;
  ext_getitem := ext_getitem toy;
  ext_GPUMemoryStatsCallback := ext_GPUMemoryStatsCallback toy;
  ext_SMTTrainer := ext_SMTTrainer toy;
  ext_memory_stats := ext_memory_stats toy;
  ext_train := ext_train toy;
  ext_select_submatrix :=
    fun _ _ _ _ _ _ mt w => ((w + 1)%Z, @Returned ToyU _ (toy_table mt));
  ext_open := ext_open toy;
  ext_json_dump := ext_json_dump toy;
  ext_close := ext_close toy;
  ext_stop_profile := ext_stop_profile toy;
  ext_log_training_metrics := ext_log_training_metrics toy;
  attr_warmup_mlp_grads := attr_warmup_mlp_grads toy;
  attr_warmup_attention_grads := attr_warmup_attention_grads toy;
  attr_state := attr_state toy;
  attr_global_step := attr_global_step toy;
  attr_sum_training_step_time := attr_sum_training_step_time toy;
  ext_str := ext_str toy
|}.

(** The two selections of the run of [toy_bumping]: the second is made one
    step later. *)
Definition bumping_select (mt : ModuleType) (step : Z) : Entry ToyU :=
  @Build_Entry ToyU step
    (@Cselect_submatrix ToyU tt mt step false "out" half mt)
    (@Returned ToyU _ (@RSelected ToyU (toy_table mt))).

(** * Properties *)

(** ** Dictionaries *)

Section DictFacts.
Context {K V : Type} `{EqDecision K}.
Implicit Types (d : Py.dict K V) (k : K) (v : V) (kvs : list (K * V)).

Lemma setitem_fresh d k v :
  k ∉ Py.keys d -> Py.setitem d k v = d ++ [(k, v)].
Proof.
  unfold Py.keys. induction d as [|[k' v'] d IH]; intros Hk; [done|].
  cbn in *. rewrite not_elem_of_cons in Hk. destruct Hk as [Hne Hk].
  destruct (decide (k' = k)); [congruence|]. by rewrite IH.
Qed.

Lemma setitem_keys d k v :
  Py.keys (Py.setitem d k v)
  = if decide (k ∈ Py.keys d) then Py.keys d else Py.keys d ++ [k].
Proof.
  unfold Py.keys. induction d as [|[k' v'] d IH]; cbn.
  - destruct (decide (k ∈ [])) as [Hin|]; [by apply elem_of_nil in Hin|done].
  - destruct (decide (k' = k)) as [->|Hne]; cbn.
    + destruct (decide (k ∈ k :: d.*1)) as [|Hn]; [done|].
      exfalso. apply Hn. left.
    + rewrite IH. destruct (decide (k ∈ d.*1)) as [Hin|Hn].
      * destruct (decide (k ∈ k' :: d.*1)) as [|Hn']; [done|].
        exfalso. apply Hn'. by right.
      * destruct (decide (k ∈ k' :: d.*1)) as [Hin'|]; [|done].
        apply elem_of_cons in Hin' as [->|]; done.
Qed.

Lemma setitem_get d k v k' :
  Py.get (Py.setitem d k v) k' = if decide (k = k') then Some v else Py.get d k'.
Proof.
  induction d as [|[k1 v1] d IH]; cbn.
  - destruct (decide (k = k')); done.
  - destruct (decide (k1 = k)) as [->|Hne]; cbn.
    + destruct (decide (k = k')); done.
    + destruct (decide (k1 = k')) as [->|].
      * destruct (decide (k = k')); [congruence|done].
      * apply IH.
Qed.

Lemma elem_of_setitem d k v k' v' :
  (k', v') ∈ Py.setitem d k v -> (k', v') ∈ d \/ (k' = k /\ v' = v).
Proof.
  induction d as [|[k1 v1] d IH]; cbn.
  - rewrite list_elem_of_singleton. intros [= -> ->]. by right.
  - destruct (decide (k1 = k)) as [->|Hne]; rewrite !elem_of_cons.
    + intros [[= -> ->]|Hin]; [by right|left; by right].
    + intros [->|Hin]; [left; by left|].
      destruct (IH Hin) as [|]; [left; by right|by right].
Qed.

Lemma setitem_wf d k v : Py.wf d -> Py.wf (Py.setitem d k v).
Proof.
  unfold Py.wf. intros Hd. rewrite setitem_keys.
  destruct (decide (k ∈ Py.keys d)); [done|].
  apply NoDup_app. split_and!; [done| |apply NoDup_singleton].
  intros x Hx Hx'. apply list_elem_of_singleton in Hx' as ->. done.
Qed.

Lemma update_app d kvs :
  Py.wf (d ++ kvs) -> Py.update d kvs = d ++ kvs.
Proof.
  unfold Py.update, Py.wf, Py.keys.
  revert d. induction kvs as [|[k v] kvs IH]; intros d Hd; cbn.
  - by rewrite app_nil_r.
  - rewrite setitem_fresh.
    + rewrite IH; rewrite <- app_assoc; done.
    + rewrite fmap_app in Hd. apply NoDup_app in Hd as (_ & Hd & _).
      intros Hin. apply (Hd k Hin). left.
Qed.

Lemma update_wf d kvs : Py.wf d -> Py.wf (Py.update d kvs).
Proof.
  unfold Py.update. revert d.
  induction kvs as [|[k v] kvs IH]; intros d Hd; cbn; [done|].
  apply IH. by apply setitem_wf.
Qed.

Lemma elem_of_update d kvs k v :
  (k, v) ∈ Py.update d kvs -> (k, v) ∈ d \/ (k, v) ∈ kvs.
Proof.
  unfold Py.update. revert d.
  induction kvs as [|[k1 v1] kvs IH]; intros d; cbn; [by left|].
  intros Hin. destruct (IH _ Hin) as [Hin'|Hin']; [|right; by right].
  destruct (elem_of_setitem _ _ _ _ _ Hin') as [|[-> ->]];
    [by left|right; left].
Qed.

Lemma update_keys_incl d kvs k :
  k ∈ Py.keys (Py.update d kvs) <-> k ∈ Py.keys d \/ k ∈ kvs.*1.
Proof.
  unfold Py.update. revert d.
  induction kvs as [|[k1 v1] kvs IH]; intros d; simpl.
  - rewrite elem_of_nil. tauto.
  - rewrite IH, setitem_keys, elem_of_cons.
    destruct (decide (k1 ∈ Py.keys d)) as [Hin|Hn].
    + split; [tauto|]. intros [|[->|]]; tauto.
    + rewrite elem_of_app, list_elem_of_singleton. tauto.
Qed.

Lemma update_keys_sublist d kvs :
  Py.keys (Py.update d kvs) `sublist_of` Py.keys d ++ kvs.*1.
Proof.
  unfold Py.update. revert d.
  induction kvs as [|[k1 v1] kvs IH]; intros d; cbn.
  - by rewrite app_nil_r.
  - etrans; [apply IH|]. rewrite setitem_keys.
    destruct (decide (k1 ∈ Py.keys d)).
    + apply sublist_app; [done|]. by apply sublist_cons.
    + by rewrite <- app_assoc.
Qed.

Lemma update_length d kvs :
  length (Py.update d kvs) <= length d + length kvs.
Proof.
  rewrite <- (length_fmap fst (Py.update d kvs)).
  etrans; [apply sublist_length, update_keys_sublist|].
  unfold Py.keys. rewrite length_app, !length_fmap. done.
Qed.

(** The value under a key is the last one stored for it. *)
Lemma update_get d kvs k :
  Py.get (Py.update d kvs) k
  = match Py.get (reverse kvs) k with
    | Some v => Some v
    | None => Py.get d k
    end.
Proof.
  unfold Py.update. revert d.
  induction kvs as [|[k1 v1] kvs IH]; intros d; [done|].
  rewrite reverse_cons. simpl. rewrite IH, setitem_get.
  assert (Hget : forall l : Py.dict K V,
    Py.get (l ++ [(k1, v1)]) k
    = match Py.get l k with
      | Some v => Some v
      | None => if decide (k1 = k) then Some v1 else None
      end).
  { induction l as [|[k2 v2] l IHl]; cbn; [done|].
    destruct (decide (k2 = k)); [done|apply IHl]. }
  rewrite Hget. destruct (Py.get (reverse kvs) k); [done|].
  destruct (decide (k1 = k)); done.
Qed.

End DictFacts.

Section ComprehensionFacts.
Context {K K' V : Type} `{EqDecision K'}.
Implicit Types (f : K -> K') (d : Py.dict K V).

(** Keys with pairwise distinct images: the comprehension is the item-wise
    image, in the same order. *)
Lemma comprehension_distinct f d :
  NoDup (f <$> Py.keys d) ->
  Py.comprehension f d = map (fun kv => (f kv.1, kv.2)) d.
Proof.
  intros Hd. unfold Py.comprehension, Py.items.
  rewrite update_app; [done|].
  unfold Py.wf, Py.keys in *. cbn.
  rewrite <- list_fmap_compose. by rewrite <- list_fmap_compose in Hd.
Qed.

Lemma comprehension_wf f d : Py.wf (Py.comprehension f d).
Proof. apply update_wf, NoDup_nil_2. Qed.

Lemma elem_of_comprehension f d k' v :
  (k', v) ∈ Py.comprehension f d -> exists k, (k, v) ∈ d /\ f k = k'.
Proof.
  intros Hin. apply elem_of_update in Hin as [Hin|Hin].
  - by apply elem_of_nil in Hin.
  - apply list_elem_of_fmap in Hin as ([k v0] & [= -> ->] & Hin). eauto.
Qed.

Lemma comprehension_keys_sublist f d :
  Py.keys (Py.comprehension f d) `sublist_of` f <$> Py.keys d.
Proof.
  unfold Py.comprehension, Py.items.
  etrans; [apply update_keys_sublist|]. cbn.
  unfold Py.keys. by rewrite <- !list_fmap_compose.
Qed.

Lemma comprehension_keys_complete f d k :
  k ∈ Py.keys d -> f k ∈ Py.keys (Py.comprehension f d).
Proof.
  intros Hk. apply update_keys_incl. right.
  unfold Py.items, Py.keys in *. rewrite <- list_fmap_compose.
  apply list_elem_of_fmap in Hk as ([k0 v0] & -> & Hin).
  apply list_elem_of_fmap. by exists (k0, v0).
Qed.

Lemma comprehension_length f d :
  length (Py.comprehension f d) <= length d.
Proof.
  unfold Py.comprehension, Py.items.
  etrans; [apply update_length|]. by rewrite length_map.
Qed.

(** Two distinct positions whose keys have the same image: the output is
    strictly shorter than the input. *)
Lemma comprehension_collapse f d i j ki vi kj vj :
  d !! i = Some (ki, vi) -> d !! j = Some (kj, vj) -> i <> j ->
  f ki = f kj ->
  length (Py.comprehension f d) < length d.
Proof.
  intros Hi Hj Hij Hf.
  set (l := f <$> Py.keys d).
  assert (Hli : l !! i = Some (f ki))
    by (unfold l, Py.keys; rewrite !list_lookup_fmap; by rewrite Hi).
  assert (Hlj : l !! j = Some (f ki))
    by (unfold l, Py.keys; rewrite !list_lookup_fmap; rewrite Hj; cbn; by rewrite Hf).
  assert (Hdel : forall n x, l !! n = Some x -> n <> j -> x ∈ delete j l).
  { intros n x Hn Hne. apply list_elem_of_lookup.
    destruct (decide (n < j)) as [Hlt|Hge].
    - exists n. by rewrite list_lookup_delete_lt.
    - exists (pred n). rewrite list_lookup_delete_ge by lia.
      by replace (S (pred n)) with n by lia. }
  assert (Hsub : Py.keys (Py.comprehension f d) ⊆+ delete j l).
  { apply NoDup_submseteq; [apply comprehension_wf|].
    intros x Hx.
    apply (elem_of_sublist _ l) in Hx; [|apply comprehension_keys_sublist].
    apply list_elem_of_lookup in Hx as [n Hn].
    destruct (decide (n = j)) as [->|Hne]; [|by apply (Hdel n)].
    rewrite Hlj in Hn. injection Hn as <-. by apply (Hdel i). }
  apply submseteq_length in Hsub.
  rewrite length_delete in Hsub by eauto.
  unfold l, Py.keys in Hsub. rewrite !length_fmap in Hsub.
  apply lookup_lt_Some in Hj. lia.
Qed.

End ComprehensionFacts.

(** ** Paths and floats *)

Lemma path_join_relative a b :
  Py.startswith_sep b = false ->
  Py.path_join a b = a +:+ b \/ Py.path_join a b = a +:+ "/" +:+ b.
Proof.
  intros Hb. unfold Py.path_join. rewrite Hb.
  destruct (_ || _); [by left|by right].
Qed.

Lemma lt_zero_not_ge_zero (x : Py.float) :
  Py.lt_zero x = true -> Py.ge_zero x = false.
Proof. destruct x as [[]|[]| |[] ? ?]; done. Qed.

(** The dictionary [save_selected_submatrix] hands to [json.dump]: the
    two keys are distinct strings, so neither the display nor the
    comprehension over [str] merges or reorders them. *)
Lemma combined_object {V} (mlp attention : V) :
  Py.comprehension Py.str_str
    (Py.display
       [("selected_mlp_submatrix", mlp);
        ("selected_attention_submatrix", attention)])
  = [("selected_mlp_submatrix", mlp);
     ("selected_attention_submatrix", attention)].
Proof. reflexivity. Qed.

Lemma model_kwargs_object (a b c d e : kwarg) :
  Py.display
    [("revision", a); ("trust_remote_code", b); ("attn_implementation", c);
     ("torch_dtype", d); ("device_map", e)]
  = [("revision", a); ("trust_remote_code", b); ("attn_implementation", c);
     ("torch_dtype", d); ("device_map", e)].
Proof. reflexivity. Qed.

(** ** Scanning traces *)


Section TraceFacts.
Context {U : Externals}.
Implicit Types (t : Trace U) (e : Entry U).

Lemma count_calls_pos (p : Call U -> bool) t :
  0 < count_calls p t <-> exists e, e ∈ t /\ p (call e) = true.
Proof.
  unfold count_calls. split.
  - destruct (List.filter _ t) as [|e l] eqn:Hf; cbn; [lia|]. intros _.
    assert (Hin : In e (List.filter (fun e => p (call e)) t))
      by (rewrite Hf; by left).
    apply filter_In in Hin as [Hin Hp]. exists e.
    split; [by apply list_elem_of_In|done].
  - intros (e & He & Hp).
    assert (Hin : In e (List.filter (fun e => p (call e)) t))
      by (apply filter_In; split; [by apply list_elem_of_In|done]).
    destruct (List.filter _ t); [done|cbn; lia].
Qed.

Lemma count_calls_zero (p : Call U -> bool) t e :
  count_calls p t = 0 -> e ∈ t -> p (call e) = false.
Proof.
  intros Hz He. destruct (p (call e)) eqn:Hp; [|done].
  assert (0 < count_calls p t) by (apply count_calls_pos; eauto). lia.
Qed.

Lemma elem_of_opens t e path mode :
  e ∈ t -> call e = Copen path mode -> (path, mode) ∈ opens t.
Proof.
  intros He Hc. apply list_elem_of_omap. exists e. by rewrite Hc.
Qed.

Lemma elem_of_opened_files t e path mode f :
  e ∈ t -> call e = Copen path mode -> outcome e = Returned (RFile f) ->
  f ∈ opened_files t.
Proof.
  intros He Hc Ho. apply list_elem_of_omap. exists e. by rewrite Hc, Ho.
Qed.

Lemma elem_of_dumps t e obj f sep ind :
  e ∈ t -> call e = Cjson_dump obj f sep ind -> (obj, f, sep, ind) ∈ dumps t.
Proof.
  intros He Hc. apply list_elem_of_omap. exists e. by rewrite Hc.
Qed.

Lemma selects_is_selection mt (c : Call U) :
  selects mt c = true -> is_selection c = true.
Proof. by destruct c, mt. Qed.

End TraceFacts.

Section MoreDictFacts.
Context {K K' V : Type} `{EqDecision K'}.

Lemma wf_functional (d : Py.dict K' V) k v v' :
  Py.wf d -> (k, v) ∈ d -> (k, v') ∈ d -> v = v'.
Proof.
  unfold Py.wf, Py.keys. induction d as [|[k0 v0] d IH]; cbn.
  - intros _ Hin. by apply elem_of_nil in Hin.
  - rewrite NoDup_cons, !elem_of_cons. intros [Hk Hd] [Heq|Hin] [Heq'|Hin'].
    + congruence.
    + injection Heq as -> ->. exfalso. apply Hk.
      apply list_elem_of_fmap. by exists (k0, v').
    + injection Heq' as -> ->. exfalso. apply Hk.
      apply list_elem_of_fmap. by exists (k0, v).
    + by apply IH.
Qed.

(** Keys sharing an image end up in one entry of the comprehension. *)
Lemma comprehension_single (f : K -> K') (d : Py.dict K V) k :
  k ∈ Py.keys d ->
  exists v, forall v', (f k, v') ∈ Py.comprehension f d <-> v' = v.
Proof.
  intros Hk. pose proof (comprehension_keys_complete f d k Hk) as Hin.
  apply list_elem_of_fmap in Hin as ([s v] & Hs & Hin). cbn in Hs. subst s.
  exists v. intros v'. split; [|by intros ->].
  intros Hin'. by apply (wf_functional _ _ _ _ (comprehension_wf f d) Hin' Hin).
Qed.

Lemma comprehension_collapse_keys (f : K -> K') (d : Py.dict K V)
    k1 v1 k2 v2 :
  (k1, v1) ∈ d -> (k2, v2) ∈ d -> k1 <> k2 -> f k1 = f k2 ->
  length (Py.comprehension f d) < length d.
Proof.
  intros H1 H2 Hne Hf.
  apply list_elem_of_lookup in H1 as [i Hi].
  apply list_elem_of_lookup in H2 as [j Hj].
  apply (comprehension_collapse f d i j k1 v1 k2 v2); try done.
  intros ->. congruence.
Qed.

Lemma elem_of_keys (d : Py.dict K V) k v : (k, v) ∈ d -> k ∈ Py.keys d.
Proof. intros Hin. apply list_elem_of_fmap. by exists (k, v). Qed.

End MoreDictFacts.

(** ** More on traces and dictionaries *)

Section MoreTraceFacts.
Context {U : Externals}.
Implicit Types (t : Trace U) (e : Entry U).

Lemma all_returned_spec t :
  all_returned t = true <-> forall e, e ∈ t -> is_returned (outcome e) = true.
Proof.
  unfold all_returned. rewrite forallb_forall. split.
  - intros H e He. apply H. by apply list_elem_of_In.
  - intros H e He. apply H. by apply list_elem_of_In.
Qed.

Lemma elem_of_raised t x :
  x ∈ raised t <-> exists e, e ∈ t /\ outcome e = Raised x.
Proof.
  unfold raised. rewrite list_elem_of_omap. split.
  - intros (e & He & Ho). exists e. split; [done|].
    destruct (outcome e); congruence.
  - intros (e & He & Ho). exists e. by rewrite Ho.
Qed.

Lemma halts_after_raise_split t :
  halts_after_raise t = true ->
  forall t1 e t2,
    t = t1 ++ e :: t2 -> is_returned (outcome e) = false ->
    t2 = [] \/
    exists obj f sep ind c g,
      call e = Cjson_dump obj f sep ind /\ t2 = [c] /\ call c = Cclose g.
Proof.
  induction t as [|x t IH]; intros Hscan t1 e t2 Ht He.
  - by destruct t1.
  - destruct t1 as [|y t1]; cbn in Ht; injection Ht as -> ->; cbn in Hscan.
    + rewrite He in Hscan. destruct t2 as [|c [|? ?]]; [by left| |done].
      right. destruct (call e); try done. destruct (call c) eqn:Hc; try done.
      by eexists _, _, _, _, _, _.
    + destruct (is_returned (outcome y)) eqn:Hy.
      * by apply (IH Hscan t1).
      * destruct (t1 ++ e :: t2) as [|c [|? ?]] eqn:Hl; try done;
          destruct t1 as [|? [|? ?]]; cbn in Hl; try done.
        injection Hl as <- <-. by left.
Qed.

(** In a run that stops at the first call that raises, every call made
    before a call that is not a [close] returned. *)
Lemma returned_before t :
  halts_after_raise t = true ->
  forall t1 e t2 x,
    t = t1 ++ e :: t2 -> (forall g, call e <> Cclose g) ->
    x ∈ t1 -> is_returned (outcome x) = true.
Proof.
  intros Hscan t1 e t2 x Ht Hne Hx.
  destruct (is_returned (outcome x)) eqn:Hret; [done|exfalso].
  apply list_elem_of_split in Hx as (a & b & ->).
  rewrite <- app_assoc in Ht. cbn in Ht.
  destruct (halts_after_raise_split t Hscan a x (b ++ e :: t2) Ht Hret)
    as [Hnil|(obj & f & sep & ind & c & g & _ & Hone & Hclose)].
  - by destruct b.
  - destruct b as [|? [|? ?]]; cbn in Hone; try done.
    injection Hone as <- _. by apply (Hne g).
Qed.

Lemma elem_of_closes t e f : e ∈ t -> call e = Cclose f -> f ∈ closes t.
Proof.
  intros He Hc. apply list_elem_of_omap. exists e. by rewrite Hc.
Qed.

Lemma elem_of_saved_logs t e path :
  e ∈ t -> call e = Clogger_info (LogSaved path) -> path ∈ saved_logs t.
Proof.
  intros He Hc. apply list_elem_of_omap. exists e. by rewrite Hc.
Qed.

Lemma elem_of_constructions t e m a tr ev tok mode cbs :
  e ∈ t -> call e = CSMTTrainer m a tr ev tok mode cbs -> e ∈ constructions t.
Proof.
  intros He Hc. apply list_elem_of_omap. exists e. by rewrite Hc.
Qed.

Lemma elem_of_profilers_used t e p :
  e ∈ t ->
  call e = Cstart_profile p \/ call e = Cstop_profile p \/
  (exists s tm, call e = Clog_training_metrics s tm p) ->
  p ∈ profilers_used t.
Proof.
  intros He Hc. apply list_elem_of_omap. exists e. split; [done|].
  destruct Hc as [->|[->|(s & tm & ->)]]; done.
Qed.

Lemma elem_of_serialization_entries t e :
  e ∈ t -> stage_of (call e) = Some Serialization ->
  e ∈ serialization_entries t.
Proof.
  intros He Hc. apply list_elem_of_omap. exists e. by rewrite Hc.
Qed.

Lemma elem_of_selections' t e :
  e ∈ t -> is_selection (call e) = true -> e ∈ selections t.
Proof.
  intros He Hc. apply list_elem_of_omap. exists e. split; [done|].
  by destruct (call e).
Qed.

Lemma count_logs_saved t : count_calls logs_saved t = length (saved_logs t).
Proof.
  unfold count_calls, saved_logs. induction t as [|e t IH]; cbn; [done|].
  destruct (call e) as [| |[]| | | | | | | | | | | | | | | |]; cbn;
    by rewrite ?IH.
Qed.

Lemma opened_files_length t : length (opened_files t) <= length (opens t).
Proof.
  unfold opened_files, opens. induction t as [|e t IH]; cbn; [done|].
  destruct (call e); cbn; try done.
  destruct (outcome e) as [[]|]; cbn; lia.
Qed.

End MoreTraceFacts.

Section GetFacts.
Context {K V : Type} `{EqDecision K}.
Implicit Types (d : Py.dict K V).

Lemma get_app d1 d2 k :
  Py.get (d1 ++ d2) k
  = match Py.get d1 k with
    | Some v => Some v
    | None => Py.get d2 k
    end.
Proof.
  induction d1 as [|[k1 v1] d1 IH]; cbn; [done|].
  destruct (decide (k1 = k)); [done|apply IH].
Qed.

Lemma get_None d k : k ∉ Py.keys d -> Py.get d k = None.
Proof.
  unfold Py.keys. induction d as [|[k1 v1] d IH]; cbn; [done|].
  rewrite not_elem_of_cons. intros [Hne Hk].
  destruct (decide (k1 = k)); [congruence|by apply IH].
Qed.

End GetFacts.

(** In a comprehension the last entry stored under a key gives its
    value. *)
Lemma comprehension_last_wins {K K' V} `{EqDecision K'}
    (f : K -> K') (d1 d2 : Py.dict K V) k v :
  (forall k2, k2 ∈ Py.keys d2 -> f k2 <> f k) ->
  Py.get (Py.comprehension f (d1 ++ (k, v) :: d2)) (f k) = Some v.
Proof.
  intros Hlast. unfold Py.comprehension, Py.items. rewrite update_get.
  rewrite map_app. cbn [map]. rewrite reverse_app, reverse_cons.
  rewrite <- app_assoc. rewrite get_app.
  rewrite get_None.
  - cbn. by rewrite decide_True.
  - unfold Py.keys. rewrite fmap_reverse, elem_of_reverse.
    rewrite <- list_fmap_compose. intros Hin.
    apply list_elem_of_fmap in Hin as ([k2 v2] & Heq & Hin). cbn in Heq.
    apply (Hlast k2); [|done]. apply list_elem_of_fmap. by exists (k2, v2).
Qed.

(** Over a dictionary whose keys are strings, the comprehension on [str]
    changes nothing. *)
Lemma comprehension_str_str {V} (d : Py.dict string V) :
  Py.wf d -> Py.comprehension Py.str_str d = d.
Proof.
  intros Hwf. rewrite comprehension_distinct.
  - unfold Py.str_str. induction d as [|[k v] d IH]; cbn; [done|].
    f_equal. apply IH. unfold Py.wf, Py.keys in *. cbn in Hwf.
    by apply NoDup_cons in Hwf as [_ ?].
  - unfold Py.wf, Py.str_str in *. by rewrite list_fmap_id.
Qed.

(** ** The keys of a comprehension, in order *)

Section FirstOccurrences.
Context {K V : Type} `{EqDecision K}.
Implicit Types (d : Py.dict K V) (kvs : list (K * V)).

Lemma filter_filter_andb {A} (p q : A -> bool) (l : list A) :
  List.filter p (List.filter q l) = List.filter (fun y => q y && p y) l.
Proof.
  induction l as [|x l IH]; cbn; [done|].
  destruct (q x); cbn; [destruct (p x)|]; by rewrite IH.
Qed.

Lemma filter_all {A} (p : A -> bool) (l : list A) :
  (forall x, p x = true) -> List.filter p l = l.
Proof.
  intros Hp. induction l as [|x l IH]; cbn; [done|]. by rewrite Hp, IH.
Qed.

(** Storing items into a dictionary keeps its keys and appends the new
    ones, each where it first occurs. *)
Lemma update_keys_first d kvs :
  Py.keys (Py.update d kvs)
  = Py.keys d
    ++ List.filter (fun y => negb (bool_decide (y ∈ Py.keys d)))
         (first_occurrences kvs.*1).
Proof.
  unfold Py.update. revert d.
  induction kvs as [|[k v] kvs IH]; intros d.
  - cbn. by rewrite app_nil_r.
  - transitivity
      (Py.keys
         (fold_left (fun acc kv => Py.setitem acc kv.1 kv.2) kvs
            (Py.setitem d k v))); [done|].
    rewrite IH, setitem_keys.
    change (((k, v) :: kvs).*1) with (k :: kvs.*1).
    cbn [first_occurrences List.filter].
    destruct (decide (k ∈ Py.keys d)) as [Hin|Hn].
    + rewrite (bool_decide_eq_true_2 _ Hin). cbn [negb].
      rewrite filter_filter_andb. f_equal. apply filter_ext. intros y.
      destruct (decide (y = k)) as [->|Hne].
      * by rewrite (bool_decide_eq_true_2 _ Hin), andb_false_r.
      * by rewrite (bool_decide_eq_false_2 _ Hne).
    + rewrite (bool_decide_eq_false_2 _ Hn). cbn [negb].
      rewrite <- app_assoc. cbn [app]. do 2 f_equal.
      rewrite filter_filter_andb. apply filter_ext. intros y.
      destruct (decide (y = k)) as [->|Hne].
      * rewrite (bool_decide_eq_true_2 (k = k) eq_refl). cbn.
        rewrite bool_decide_eq_true_2; [done|]. apply elem_of_app. right. left.
      * rewrite (bool_decide_eq_false_2 _ Hne). cbn.
        destruct (decide (y ∈ Py.keys d)) as [Hy|Hy].
        -- rewrite (bool_decide_eq_true_2 _ Hy).
           rewrite bool_decide_eq_true_2; [done|]. apply elem_of_app. by left.
        -- rewrite (bool_decide_eq_false_2 _ Hy).
           rewrite bool_decide_eq_false_2; [done|].
           rewrite elem_of_app, list_elem_of_singleton. tauto.
Qed.

End FirstOccurrences.

(** The keys of a comprehension are the images of the keys, each where it
    first occurs. *)
Lemma comprehension_keys_first {K K' V} `{EqDecision K'}
    (f : K -> K') (d : Py.dict K V) :
  Py.keys (Py.comprehension f d) = first_occurrences (f <$> Py.keys d).
Proof.
  unfold Py.comprehension, Py.items. rewrite update_keys_first. cbn.
  rewrite filter_all; [|done].
  unfold Py.keys. by rewrite <- !list_fmap_compose.
Qed.

(** ** Runs of [main] *)

Section MainRuns.
Context {U : Externals} (env : Collaborators U).

#[local] Arguments Py.display : simpl never.
#[local] Arguments Py.comprehension : simpl never.
#[local] Arguments Py.path_join : simpl never.
#[local] Arguments Py.ge_zero : simpl never.

Ltac unfold_script :=
  unfold main, save_selected_submatrix, with_open, finally,
    TrlParser_, parse_args_and_config, load_and_configure_tokenizer,
    initialize_model, prepare_datasets, FlopsProfiler_, start_profile,
    getitem, GPUMemoryStatsCallback, SMTTrainer_, memory_stats, train,
    select_submatrix, open, json_dump, close, stop_profile,
    log_training_metrics, logger_info, read, ret, perform, bind.

(** One step of the symbolic run: case analysis on the outcome of the next
    call, or on the next test of a ratio. *)
Ltac step_script :=
  match goal with
  | |- context [match ?x with (_, _) => _ end] =>
      match type of x with
      | (World U * Outcome U _)%type => destruct x as [? [?|?]] eqn:?
      end
  | |- context [let (_, _) := ?x in _] =>
      match type of x with
      | (World U * Outcome U _)%type => destruct x as [? [?|?]] eqn:?
      end
  | |- context [if Py.ge_zero ?r then _ else _] =>
      destruct (Py.ge_zero r) eqn:?
  | x : (_ * _)%type |- _ => destruct x
  end; cbn.

(** The run of [main] from [w0], case by case; every goal is left with the
    trace, the outcome and the final world of its case. *)
Ltac exec_main w0 :=
  let Hrun := fresh "Hrun" in
  unfold trace_of, outcome_of, world_after in *;
  destruct (main env w0) as [[? ?] ?] eqn:Hrun;
  cbn [fst snd] in *;
  revert Hrun; unfold_script; cbn; repeat step_script;
  intros [= <- <- <-].

Lemma elem_of_selections (t : Trace U) (e : Entry U) m g s a d r mt :
  e ∈ t -> call e = Cselect_submatrix m g s a d r mt -> e ∈ selections t.
Proof.
  intros He Hc. apply list_elem_of_omap. exists e. by rewrite Hc.
Qed.

Lemma elem_of_modes (t : Trace U) (e : Entry U) mode :
  e ∈ t -> mode ∈ modes_passed (call e) ->
  mode ∈ t ≫= (fun e => modes_passed (call e)).
Proof. intros He Hm. apply list_elem_of_bind. eauto. Qed.

(** C4: whenever [main] constructs the trainer it does so in
    [SelectSubmatrixMode], the "observe gradients" mode; it constructs at
    most one trainer, exactly one in a run that returns, and no call that
    [main] makes passes any other mode on. *)
Theorem trainer_mode_is_select_submatrix (w0 : World U) :
  let t := trace_of (main env) w0 in
  (forall e mode, e ∈ t -> mode ∈ modes_passed (call e) ->
     mode = SelectSubmatrixMode) /\
  (forall e, e ∈ t -> TrainSelectedBlocksMode ∉ modes_passed (call e)) /\
  count_calls constructs_trainer t <= 1 /\
  (is_returned (outcome_of (main env) w0) = true ->
   count_calls constructs_trainer t = 1).
Proof.
  cbn zeta.
  assert (Hmodes :
    (trace_of (main env) w0 ≫= (fun e => modes_passed (call e)))
      ⊆ [SelectSubmatrixMode]
    /\ count_calls constructs_trainer (trace_of (main env) w0) <= 1
    /\ (is_returned (outcome_of (main env) w0) = true ->
        count_calls constructs_trainer (trace_of (main env) w0) = 1)).
  { exec_main w0; (split; [set_solver|]); split; cbn; solve [lia|done]. }
  destruct Hmodes as (Hm & Hle & Heq).
  split_and!; [| |done|done].
  - intros e mode He Hmode.
    pose proof (Hm _ (elem_of_modes _ _ _ He Hmode)) as Hin.
    by apply list_elem_of_singleton in Hin.
  - intros e He Hmode.
    pose proof (Hm _ (elem_of_modes _ _ _ He Hmode)) as Hin.
    by apply list_elem_of_singleton in Hin.
Qed.

(** What every invocation of [select_submatrix] in a run looks like. *)
Lemma selections_shape (w0 : World U) :
  Forall (fun e =>
    exists script_args training_args model_args model trainer mt,
      parsed_args (trace_of (main env) w0)
        = Some (script_args, training_args, model_args) /\
      built_model (trace_of (main env) w0) = Some model /\
      built_trainer (trace_of (main env) w0) = Some trainer /\
      call e =
        Cselect_submatrix model (warmup_grads env mt trainer (pre e))
          (global_step_of env trainer (pre e))
          (enable_analysis training_args) (output_dir training_args)
          (downsample_ratio mt training_args) mt)
    (selections (trace_of (main env) w0)).
Proof.
  exec_main w0; repeat constructor;
    first [by eexists _, _, _, _, _, MLP | by eexists _, _, _, _, _, ATTENTION].
Qed.

(** The worlds in which [select_submatrix] is invoked differ at most by
    what an earlier invocation of it did. *)
Lemma selections_steps (w0 : World U) (trainer : SMTTrainer U) :
  select_submatrix_keeps_step env ->
  forall x y,
    x ∈ selections (trace_of (main env) w0) ->
    y ∈ selections (trace_of (main env) w0) ->
    global_step_of env trainer (pre y) = global_step_of env trainer (pre x).
Proof.
  intros Hkeep.
  exec_main w0; intros x y Hx Hy; set_unfold; try done.
  all: repeat match goal with
       | H : ext_select_submatrix env ?m ?g ?s ?a ?d ?r ?mt ?w = (?w', _) |- _ =>
           let Hstep := fresh "Hstep" in
           pose proof (Hkeep m g s a d r mt trainer w) as Hstep;
           rewrite H in Hstep; cbn in Hstep; clear H
       end.
  all: repeat match goal with H : _ \/ _ |- _ => destruct H end;
    subst; cbn; solve [done | congruence].
Qed.

(** What the serialization of a run looks like: at most one file is opened,
    under the name built from [output_dir], and once it is open exactly one
    object is dumped into it. *)
Lemma serialization_shape (w0 : World U) :
  match opens (trace_of (main env) w0) with
  | [] =>
      dumps (trace_of (main env) w0) = [] /\
      is_returned (outcome_of (main env) w0) = false
  | [(path, mode)] =>
      (exists script_args training_args model_args,
         parsed_args (trace_of (main env) w0)
           = Some (script_args, training_args, model_args) /\
         path = Py.path_join (output_dir training_args) "selected_blocks.json")
      /\ mode = "w" /\
      match opened_files (trace_of (main env) w0) with
      | [] =>
          dumps (trace_of (main env) w0) = [] /\
          is_returned (outcome_of (main env) w0) = false
      | [f] =>
          dumps (trace_of (main env) w0)
          = [([("selected_mlp_submatrix",
                Py.comprehension (ext_str env)
                  (selected MLP (trace_of (main env) w0)));
               ("selected_attention_submatrix",
                Py.comprehension (ext_str env)
                  (selected ATTENTION (trace_of (main env) w0)))],
              f, (",", ":"), None)]
      | _ => False
      end
  | _ => False
  end.
Proof.
  exec_main w0; rewrite ?combined_object; try done.
  all: split; [by eexists _, _, _|done].
Qed.

(** How often [select_submatrix] is invoked for a module type: never when
    the ratio of that module type fails [>= 0], at most once otherwise,
    and exactly once in a run that goes on to open the file. *)
Lemma selection_counts (w0 : World U) (mt : ModuleType) :
  match parsed_args (trace_of (main env) w0) with
  | None =>
      count_calls (selects mt) (trace_of (main env) w0) = 0 /\
      opens (trace_of (main env) w0) = [] /\
      count_calls announces_selection (trace_of (main env) w0) = 0
  | Some (_, training_args, _) =>
      count_calls (selects mt) (trace_of (main env) w0)
        <= (if Py.ge_zero (downsample_ratio mt training_args) then 1 else 0) /\
      (opens (trace_of (main env) w0) <> [] ->
       count_calls (selects mt) (trace_of (main env) w0)
         = (if Py.ge_zero (downsample_ratio mt training_args) then 1 else 0)) /\
      (Py.ge_zero (downsample_ratio mt training_args) = false ->
       selected mt (trace_of (main env) w0) = []) /\
      (count_calls announces_selection (trace_of (main env) w0) = 1 ->
       Py.ge_zero (downsample_mlp_blocks_ratio training_args) = false ->
       Py.ge_zero (downsample_attention_blocks_ratio training_args) = false ->
       opens (trace_of (main env) w0) <> [])
  end.
Proof.
  destruct mt; exec_main w0; cbn;
    repeat match goal with
    | H : Py.ge_zero _ = _ |- _ => rewrite H
    end;
    cbn; repeat split; intros;
    solve [done | lia | congruence
          | destruct (Py.ge_zero _); cbn; solve [done | lia | congruence]].
Qed.

(** Subsequences of concrete lists. *)
Ltac solve_sublist :=
  first [ apply sublist_nil
        | apply sublist_skip; solve_sublist
        | apply sublist_cons; solve_sublist ].

(** The stages a run enters, how often it trains, and where its
    selections stand. *)
Lemma stages_shape (w0 : World U) :
  entered (stages (trace_of (main env) w0)) `sublist_of` script_stages /\
  count_calls trains (trace_of (main env) w0) <= 1 /\
  selections_follow_training false (trace_of (main env) w0) = true /\
  (count_calls announces_selection (trace_of (main env) w0) = 1 ->
   count_calls (fun c => trains c) (trace_of (main env) w0) = 1) /\
  (is_returned (outcome_of (main env) w0) = true ->
   count_calls announces_selection (trace_of (main env) w0) = 1 /\
   [ArgumentParsing; Construction; TrainerInstantiation; Training;
    Serialization]
     `sublist_of` entered (stages (trace_of (main env) w0))).
Proof.
  exec_main w0; cbn; split_and!; try solve [done | lia | solve_sublist].
  all: intros; split; solve [done | solve_sublist].
Qed.

(** How a run goes on after each call: exceptions, the file, the
    profiler. *)
Lemma run_discipline (w0 : World U) :
  is_returned (outcome_of (main env) w0)
    = all_returned (trace_of (main env) w0) /\
  halts_after_raise (trace_of (main env) w0) = true /\
  match outcome_of (main env) w0 with
  | Returned _ => raised (trace_of (main env) w0) = []
  | Raised x => last (raised (trace_of (main env) w0)) = Some x
  end /\
  closes (trace_of (main env) w0) = opened_files (trace_of (main env) w0) /\
  count_calls starts_profile (trace_of (main env) w0) <= 1 /\
  count_calls stops_profile (trace_of (main env) w0)
    = count_calls logs_saved (trace_of (main env) w0) /\
  count_calls stops_profile (trace_of (main env) w0)
    <= count_calls starts_profile (trace_of (main env) w0) /\
  count_calls logs_metrics (trace_of (main env) w0)
    <= count_calls stops_profile (trace_of (main env) w0) /\
  Forall (fun p => built_profiler (trace_of (main env) w0) = Some p)
    (profilers_used (trace_of (main env) w0)) /\
  match saved_logs (trace_of (main env) w0) with
  | [] => True
  | [p] =>
      opens (trace_of (main env) w0) = [(p, "w")] /\
      all_returned (serialization_entries (trace_of (main env) w0)) = true /\
      length (dumps (trace_of (main env) w0)) = 1 /\
      length (closes (trace_of (main env) w0)) = 1
  | _ => False
  end /\
  selected_types (trace_of (main env) w0) `sublist_of` [MLP; ATTENTION] /\
  (opens (trace_of (main env) w0) <> [] ->
   all_returned (selections (trace_of (main env) w0)) = true /\
   count_calls announces_selection (trace_of (main env) w0) = 1).
Proof.
  exec_main w0; cbn; split_and!;
    try solve [done | lia | repeat constructor | solve_sublist].
Qed.

Ltac solve_elem_of :=
  repeat first [apply list_elem_of_here | apply list_elem_of_further].

(** What every construction of the trainer in a run looks like. *)
Lemma constructions_shape (w0 : World U) :
  Forall (fun e =>
    exists script_args training_args model_args tokenizer model datasets
           train_dataset eval_dataset callback,
      parsed_args (trace_of (main env) w0)
        = Some (script_args, training_args, model_args) /\
      call e =
        CSMTTrainer model training_args train_dataset eval_dataset tokenizer
          SelectSubmatrixMode [callback] /\
      (Cload_and_configure_tokenizer model_args, RTokenizer tokenizer)
        ∈ returned (trace_of (main env) w0) /\
      (Cinitialize_model (model_name_or_path model_args)
         [("revision", KwStr (model_revision model_args));
          ("trust_remote_code", KwBool (trust_remote_code model_args));
          ("attn_implementation",
           KwOptStr (attn_implementation model_args));
          ("torch_dtype", KwOptStr (torch_dtype model_args));
          ("device_map", KwStr "auto")],
       RModel model) ∈ returned (trace_of (main env) w0) /\
      (Cprepare_datasets (dataset_name script_args)
         (dataset_config script_args) (dataset_train_split script_args)
         (seed training_args) (test_set_percentage training_args),
       RDatasetDict datasets) ∈ returned (trace_of (main env) w0) /\
      (Cgetitem datasets "train", RDataset train_dataset)
        ∈ returned (trace_of (main env) w0) /\
      (Cgetitem datasets "test", RDataset eval_dataset)
        ∈ returned (trace_of (main env) w0) /\
      (CGPUMemoryStatsCallback, RCallback callback)
        ∈ returned (trace_of (main env) w0))
    (constructions (trace_of (main env) w0)).
Proof.
  exec_main w0; rewrite ?model_kwargs_object; cbn; repeat constructor.
  all: eexists _, _, _, _, _, _, _, _, _.
  all: split; [reflexivity|]; split; [reflexivity|].
  all: split_and!; solve_elem_of.
Qed.

(** What the calls of a run are handed: the objects built earlier in the
    same run, and in the log lines the values they announce. *)
Lemma wiring_shape (w0 : World U) :
  Forall (fun e =>
    match call e with
    | CTrlParser classes =>
        classes = [cls_ScriptArguments; cls_PeftConfig; cls_ModelConfig]
    | Cparse_args_and_config parser =>
        (CTrlParser [cls_ScriptArguments; cls_PeftConfig; cls_ModelConfig],
         RParser parser) ∈ returned (trace_of (main env) w0)
    | CFlopsProfiler model =>
        built_model (trace_of (main env) w0) = Some model
    | Ctrain trainer =>
        built_trainer (trace_of (main env) w0) = Some trainer
    | Clog_training_metrics state time p =>
        exists trainer,
          built_trainer (trace_of (main env) w0) = Some trainer /\
          state = attr_state env trainer (pre e) /\
          time = attr_sum_training_step_time env trainer (pre e) /\
          built_profiler (trace_of (main env) w0) = Some p
    | Clogger_info msg =>
        match msg with
        | LogSelectedMlp d => d = selected MLP (trace_of (main env) w0)
        | LogSelectedAttention d =>
            d = selected ATTENTION (trace_of (main env) w0)
        | LogSelectingSubmatrix | LogStartingTraining | LogTrainingCompleted
        | LogSaved _ => True
        | _ =>
            exists script_args training_args model_args,
              parsed_args (trace_of (main env) w0)
                = Some (script_args, training_args, model_args) /\
              match msg with
              | LogScriptArguments a => a = script_args
              | LogTrainingArguments a => a = training_args
              | LogModelArguments a => a = model_args
              | LogModelKwargs kw =>
                  kw = [("revision", KwStr (model_revision model_args));
                        ("trust_remote_code",
                         KwBool (trust_remote_code model_args));
                        ("attn_implementation",
                         KwOptStr (attn_implementation model_args));
                        ("torch_dtype", KwOptStr (torch_dtype model_args));
                        ("device_map", KwStr "auto")]
              | LogMlpRatio r => r = downsample_mlp_blocks_ratio training_args
              | LogAttentionRatio r =>
                  r = downsample_attention_blocks_ratio training_args
              | _ => True
              end
        end
    | _ => True
    end) (trace_of (main env) w0) /\
  match parsed_args (trace_of (main env) w0) with
  | Some (_, training_args, _) =>
      opens (trace_of (main env) w0) <> [] ->
      selected_types (trace_of (main env) w0)
      = List.filter
          (fun mt => Py.ge_zero (downsample_ratio mt training_args))
          [MLP; ATTENTION]
  | None => True
  end /\
  count_calls is_memory_stats (trace_of (main env) w0) <= 2 /\
  (count_calls announces_selection (trace_of (main env) w0) = 1 ->
   count_calls is_memory_stats (trace_of (main env) w0) = 2) /\
  (is_returned (outcome_of (main env) w0) = true ->
   count_calls starts_profile (trace_of (main env) w0) = 1 /\
   count_calls stops_profile (trace_of (main env) w0) = 1 /\
   count_calls logs_metrics (trace_of (main env) w0) = 1).
Proof.
  exec_main w0; rewrite ?model_kwargs_object; cbn;
    repeat match goal with
    | H : Py.ge_zero _ = _ |- _ => rewrite H
    end; cbn.
  all: split_and!; try solve [done | lia].
  all: repeat (constructor; [cbn; try done|]); try constructor.
  all: try solve [solve_elem_of | by eexists _, _, _ | by eexists].
Qed.

(** Every entry of a run records what the collaborator called answered in
    the world of the call; and a run that opens the file has seen its
    training return. *)
Lemma trace_replays (w0 : World U) :
  Forall (fun e => outcome e = answer env (call e) (pre e))
    (trace_of (main env) w0) /\
  (opens (trace_of (main env) w0) <> [] ->
   Forall (fun e => trains (call e) = true -> is_returned (outcome e) = true)
     (trace_of (main env) w0)).
Proof.
  exec_main w0; split.
  all: try (intros Hopen; cbn in Hopen; try done).
  all: repeat (constructor;
         [cbn;
          repeat match goal with
          | H : ?c = (_, _) |- context [?c] => rewrite H
          end; done|]).
  all: constructor.
Qed.

End MainRuns.

(** ** What the runs of [main] establish *)

Section MainFacts.
Context {U : Externals} (env : Collaborators U).

(** What [json.dump] is handed in a run of [main]. *)
Lemma dumped_object (w0 : World U) obj f sep ind :
  (obj, f, sep, ind) ∈ dumps (trace_of (main env) w0) ->
  obj = [("selected_mlp_submatrix",
          Py.comprehension (ext_str env)
            (selected MLP (trace_of (main env) w0)));
         ("selected_attention_submatrix",
          Py.comprehension (ext_str env)
            (selected ATTENTION (trace_of (main env) w0)))].
Proof.
  intros Hin. pose proof (serialization_shape env w0) as Hshape.
  destruct (opens (trace_of (main env) w0)) as [|[p m] [|? ?]];
    [destruct Hshape as [Hd _]; rewrite Hd in Hin;
     by apply elem_of_nil in Hin| |done].
  destruct Hshape as (_ & _ & Hfiles).
  destruct (opened_files (trace_of (main env) w0)) as [|f' [|? ?]];
    [destruct Hfiles as [Hd _]; rewrite Hd in Hin;
     by apply elem_of_nil in Hin| |done].
  rewrite Hfiles in Hin. apply list_elem_of_singleton in Hin.
  by injection Hin as -> _ _ _.
Qed.

(** A run in which no collaborator raises returns, and a run that returns
    has opened the file. *)
Lemma main_returns (w0 : World U) :
  never_raises env -> is_returned (outcome_of (main env) w0) = true.
Proof.
  intros Hnr. destruct (run_discipline env w0) as (-> & _).
  apply all_returned_spec. intros e He.
  destruct (trace_replays env w0) as [Hrep _].
  rewrite (proj1 (Forall_forall _ _) Hrep e He). apply Hnr.
Qed.

Lemma returning_run_opens (w0 : World U) :
  is_returned (outcome_of (main env) w0) = true ->
  opens (trace_of (main env) w0) <> [].
Proof.
  intros Hret Hnil. pose proof (serialization_shape env w0) as Hshape.
  rewrite Hnil in Hshape. destruct Hshape as [_ Hno]. congruence.
Qed.

(** The call that selects for a module type, in a run that makes it. *)
Lemma selection_made (w0 : World U) script_args training_args model_args
    (mt : ModuleType) :
  parsed_args (trace_of (main env) w0)
    = Some (script_args, training_args, model_args) ->
  0 < count_calls (selects mt) (trace_of (main env) w0) ->
  exists e model trainer,
    e ∈ trace_of (main env) w0 /\
    built_model (trace_of (main env) w0) = Some model /\
    built_trainer (trace_of (main env) w0) = Some trainer /\
    call e =
      Cselect_submatrix model (warmup_grads env mt trainer (pre e))
        (global_step_of env trainer (pre e))
        (enable_analysis training_args) (output_dir training_args)
        (downsample_ratio mt training_args) mt.
Proof.
  intros Hparsed Hpos. apply count_calls_pos in Hpos as (e & He & Hsel).
  pose proof (selections_shape env w0) as Hshape.
  rewrite Forall_forall in Hshape.
  destruct (Hshape e (elem_of_selections' _ _ He
                        (selects_is_selection _ _ Hsel)))
    as (sa & ta & ma & model & trainer & mt' & Hp & Hm & Ht & Hcall).
  rewrite Hparsed in Hp. injection Hp as <- <- <-.
  exists e, model, trainer. split_and!; try done.
  rewrite Hcall in Hsel |- *. by destruct mt, mt'.
Qed.

(** C1 (amended): every invocation of [select_submatrix] that [main] makes
    receives the model [main] built, the warm-up gradients of the trainer
    that belong to the module type of the call (MLP gradients with [MLP],
    attention gradients with [ATTENTION]), [trainer.state.global_step] as
    it is read when the call is made, [enable_analysis], [output_dir] and
    the downsample ratio of that same module type.  A run that opens the
    file, as every run that returns does and as every run does when no
    collaborator raises, has made such an invocation, once, for each
    module type whose ratio is [>= 0].  The step counter is read anew for
    each invocation: all invocations receive the same step count when
    [select_submatrix] leaves the trainer's step counter alone. *)
Theorem select_submatrix_arguments (w0 : World U)
    script_args training_args model_args (mt : ModuleType) :
  parsed_args (trace_of (main env) w0)
    = Some (script_args, training_args, model_args) ->
  (forall e model grads step analysis dir ratio mt',
     e ∈ trace_of (main env) w0 ->
     call e = Cselect_submatrix model grads step analysis dir ratio mt' ->
     exists trainer,
       built_model (trace_of (main env) w0) = Some model /\
       built_trainer (trace_of (main env) w0) = Some trainer /\
       grads = warmup_grads env mt' trainer (pre e) /\
       step = global_step_of env trainer (pre e) /\
       analysis = enable_analysis training_args /\
       dir = output_dir training_args /\
       ratio = downsample_ratio mt' training_args) /\
  (opens (trace_of (main env) w0) <> [] ->
   Py.ge_zero (downsample_ratio mt training_args) = true ->
   count_calls (selects mt) (trace_of (main env) w0) = 1 /\
   exists e model trainer,
     e ∈ trace_of (main env) w0 /\
     built_model (trace_of (main env) w0) = Some model /\
     built_trainer (trace_of (main env) w0) = Some trainer /\
     call e =
       Cselect_submatrix model (warmup_grads env mt trainer (pre e))
         (global_step_of env trainer (pre e))
         (enable_analysis training_args) (output_dir training_args)
         (downsample_ratio mt training_args) mt) /\
  (is_returned (outcome_of (main env) w0) = true ->
   opens (trace_of (main env) w0) <> []) /\
  (never_raises env -> is_returned (outcome_of (main env) w0) = true) /\
  (select_submatrix_keeps_step env ->
   forall e model grads step analysis dir ratio mt1
          e' model' grads' step' analysis' dir' ratio' mt2,
     e ∈ trace_of (main env) w0 ->
     call e = Cselect_submatrix model grads step analysis dir ratio mt1 ->
     e' ∈ trace_of (main env) w0 ->
     call e' =
       Cselect_submatrix model' grads' step' analysis' dir' ratio' mt2 ->
     step' = step).
Proof.
  intros Hparsed.
  pose proof (selections_shape env w0) as Hshape.
  rewrite Forall_forall in Hshape.
  assert (Hargs : forall e model grads step analysis dir ratio mt',
     e ∈ trace_of (main env) w0 ->
     call e = Cselect_submatrix model grads step analysis dir ratio mt' ->
     exists trainer,
       built_model (trace_of (main env) w0) = Some model /\
       built_trainer (trace_of (main env) w0) = Some trainer /\
       grads = warmup_grads env mt' trainer (pre e) /\
       step = global_step_of env trainer (pre e) /\
       analysis = enable_analysis training_args /\
       dir = output_dir training_args /\
       ratio = downsample_ratio mt' training_args).
  { intros e model grads step analysis dir ratio mt' He Hc.
    destruct (Hshape e (elem_of_selections _ _ _ _ _ _ _ _ _ He Hc))
      as (sa & ta & ma & model0 & trainer & mt0 & Hp & Hm & Ht & Hcall).
    rewrite Hparsed in Hp. injection Hp as <- <- <-.
    rewrite Hc in Hcall. injection Hcall as -> -> -> -> -> -> ->.
    by exists trainer. }
  split_and!; [exact Hargs| | | |].
  - intros Hopens Hge.
    pose proof (selection_counts env w0 mt) as Hcount.
    rewrite Hparsed in Hcount. destruct Hcount as (_ & Heq & _).
    specialize (Heq Hopens). rewrite Hge in Heq. split; [done|].
    apply (selection_made w0 _ _ _ mt Hparsed). lia.
  - apply returning_run_opens.
  - apply main_returns.
  - intros Hkeep e model grads step analysis dir ratio mt1
      e' model' grads' step' analysis' dir' ratio' mt2 He Hc He' Hc'.
    destruct (Hargs _ _ _ _ _ _ _ _ He Hc) as (tr & _ & Ht & _ & -> & _).
    destruct (Hargs _ _ _ _ _ _ _ _ He' Hc') as (tr' & _ & Ht' & _ & -> & _).
    rewrite Ht in Ht'. injection Ht' as <-.
    apply (selections_steps env w0 tr Hkeep).
    + by apply (elem_of_selections _ _ _ _ _ _ _ _ _ He Hc).
    + by apply (elem_of_selections _ _ _ _ _ _ _ _ _ He' Hc').
Qed.

(** C2: a run of [main] that reaches serialization opens a single file, for
    writing; its path is [os.path.join(output_dir, 'selected_blocks.json')],
    that is, the name [selected_blocks.json] under [output_dir]; once the
    file is open exactly one object is handed to [json.dump], a dictionary
    with exactly the two keys ["selected_mlp_submatrix"] and
    ["selected_attention_submatrix"], in this order, mapped to the
    string-keyed MLP and attention selections; and a run that returns has
    opened the file and dumped into it. *)
Theorem result_is_serialized_as_json (w0 : World U) (e : Entry U)
    (path mode : string) :
  e ∈ trace_of (main env) w0 ->
  call e = Copen path mode ->
  exists script_args training_args model_args,
    parsed_args (trace_of (main env) w0)
      = Some (script_args, training_args, model_args) /\
    path = Py.path_join (output_dir training_args) "selected_blocks.json" /\
    (path = output_dir training_args +:+ "selected_blocks.json" \/
     path = output_dir training_args +:+ "/" +:+ "selected_blocks.json") /\
    mode = "w" /\
    opens (trace_of (main env) w0) = [(path, mode)] /\
    (forall f, outcome e = Returned (RFile f) ->
       let obj :=
         [("selected_mlp_submatrix",
           Py.comprehension (ext_str env)
             (selected MLP (trace_of (main env) w0)));
          ("selected_attention_submatrix",
           Py.comprehension (ext_str env)
             (selected ATTENTION (trace_of (main env) w0)))] in
       dumps (trace_of (main env) w0) = [(obj, f, (",", ":"), None)] /\
       Py.keys obj
         = ["selected_mlp_submatrix"; "selected_attention_submatrix"]) /\
    (is_returned (outcome_of (main env) w0) = true ->
     length (dumps (trace_of (main env) w0)) = 1).
Proof.
  intros He Hc.
  pose proof (elem_of_opens _ _ _ _ He Hc) as Hin.
  pose proof (serialization_shape env w0) as Hshape.
  destruct (opens (trace_of (main env) w0)) as [|[p m] [|? ?]];
    [by apply elem_of_nil in Hin| |done].
  apply list_elem_of_singleton in Hin. injection Hin as -> ->.
  destruct Hshape as ((sa & ta & ma & Hp & ->) & -> & Hfiles).
  exists sa, ta, ma. split_and!; try done.
  - by apply path_join_relative.
  - intros f Hf.
    pose proof (elem_of_opened_files _ _ _ _ _ He Hc Hf) as Hinf.
    destruct (opened_files (trace_of (main env) w0)) as [|f' [|? ?]];
      [by apply elem_of_nil in Hinf| |done].
    apply list_elem_of_singleton in Hinf as ->. by split.
  - intros Hret.
    destruct (opened_files (trace_of (main env) w0)) as [|f' [|? ?]];
      [|by rewrite Hfiles|done].
    destruct Hfiles as [_ Hnot]. congruence.
Qed.


(** C6: for each module type, [main] invokes [select_submatrix] if and only
    if the downsample ratio of that module type is [>= 0].  Only if: an
    invocation for a module type occurs in no run whose ratio fails the
    test.  If: a run that returns, as every run does when no collaborator
    raises, and more generally a run that reaches serialization, has
    invoked it, exactly once, when the ratio is [>= 0].  When the ratio is
    negative the selection is skipped and every object handed to
    [json.dump] maps the key of that module type to the empty mapping; a
    run that returns has opened the file and dumped one object whatever
    the ratios are; and once the selection stage is reached with both
    ratios negative, the file is opened all the same, to be written with
    two empty mappings. *)
Theorem selection_iff_ratio_nonnegative (w0 : World U)
    script_args training_args model_args (mt : ModuleType) :
  parsed_args (trace_of (main env) w0)
    = Some (script_args, training_args, model_args) ->
  ((exists e, e ∈ trace_of (main env) w0 /\ selects mt (call e) = true) ->
   Py.ge_zero (downsample_ratio mt training_args) = true) /\
  (opens (trace_of (main env) w0) <> [] ->
   Py.ge_zero (downsample_ratio mt training_args) = true ->
   exists e, e ∈ trace_of (main env) w0 /\ selects mt (call e) = true) /\
  (Py.lt_zero (downsample_ratio mt training_args) = true ->
   (forall e, e ∈ trace_of (main env) w0 -> selects mt (call e) = false) /\
   (forall obj f sep ind,
      (obj, f, sep, ind) ∈ dumps (trace_of (main env) w0) ->
      Py.get obj (json_key mt) = Some [])) /\
  (count_calls announces_selection (trace_of (main env) w0) = 1 ->
   Py.lt_zero (downsample_mlp_blocks_ratio training_args) = true ->
   Py.lt_zero (downsample_attention_blocks_ratio training_args) = true ->
   opens (trace_of (main env) w0)
     = [(Py.path_join (output_dir training_args) "selected_blocks.json", "w")]
   /\
   (forall obj f sep ind,
      (obj, f, sep, ind) ∈ dumps (trace_of (main env) w0) ->
      obj = [("selected_mlp_submatrix", []);
             ("selected_attention_submatrix", [])])) /\
  (is_returned (outcome_of (main env) w0) = true ->
   (Py.ge_zero (downsample_ratio mt training_args) = true <->
    exists e, e ∈ trace_of (main env) w0 /\ selects mt (call e) = true) /\
   count_calls (selects mt) (trace_of (main env) w0)
     = (if Py.ge_zero (downsample_ratio mt training_args) then 1 else 0) /\
   opens (trace_of (main env) w0)
     = [(Py.path_join (output_dir training_args) "selected_blocks.json", "w")]
   /\
   length (dumps (trace_of (main env) w0)) = 1) /\
  (never_raises env -> is_returned (outcome_of (main env) w0) = true).
Proof.
  intros Hparsed.
  pose proof (selection_counts env w0 mt) as Hcount.
  pose proof (selection_counts env w0 MLP) as Hmlp.
  pose proof (selection_counts env w0 ATTENTION) as Hatt.
  pose proof (serialization_shape env w0) as Hshape.
  rewrite Hparsed in Hcount, Hmlp, Hatt.
  destruct Hcount as (Hle & Heq & Hempty & _).
  destruct Hmlp as (_ & _ & Hmlp & Hopen).
  destruct Hatt as (_ & _ & Hatt & _).
  pose proof (dumped_object w0) as Hdump.
  split_and!.
  - intros Hex. apply count_calls_pos in Hex.
    destruct (Py.ge_zero (downsample_ratio mt training_args)); [done|lia].
  - intros Hopens Hge. apply count_calls_pos.
    rewrite (Heq Hopens), Hge. lia.
  - intros Hlt. apply lt_zero_not_ge_zero in Hlt. rewrite Hlt in Hle. split.
    + intros e He. apply (count_calls_zero _ (trace_of (main env) w0));
        [lia|done].
    + intros obj f sep ind Hin. rewrite (Hdump _ _ _ _ Hin).
      destruct mt; cbn; by rewrite (Hempty Hlt).
  - intros Hann Hl1 Hl2.
    apply lt_zero_not_ge_zero in Hl1, Hl2.
    specialize (Hopen Hann Hl1 Hl2). split.
    + destruct (opens (trace_of (main env) w0)) as [|[p m] [|? ?]];
        [done| |done].
      destruct Hshape as ((sa & ta & ma & Hp & ->) & -> & _).
      rewrite Hparsed in Hp. by injection Hp as _ <- _.
    + intros obj f sep ind Hin. rewrite (Hdump _ _ _ _ Hin).
      by rewrite (Hmlp Hl1), (Hatt Hl2).
  - intros Hret. pose proof (returning_run_opens w0 Hret) as Hopens.
    specialize (Heq Hopens). split_and!.
    + rewrite <- count_calls_pos, Heq.
      destruct (Py.ge_zero (downsample_ratio mt training_args));
        split; (done || lia).
    + done.
    + destruct (opens (trace_of (main env) w0)) as [|[p m] [|? ?]];
        [done| |done].
      destruct Hshape as ((sa & ta & ma & Hp & ->) & -> & _).
      rewrite Hparsed in Hp. by injection Hp as _ <- _.
    + destruct (opens (trace_of (main env) w0)) as [|[p m] [|? ?]];
        [done| |done].
      destruct Hshape as (_ & _ & Hfiles).
      destruct (opened_files (trace_of (main env) w0)) as [|f' [|? ?]];
        [|by rewrite Hfiles|done].
      destruct Hfiles as [_ Hno]. congruence.
  - apply main_returns.
Qed.

(** C5 (amended): when [select_submatrix] has returned a mapping for a
    module type, the mapping serialized under the key of that module type
    is the comprehension [{str(k): v for k, v in returned.items()}] of the
    returned one and of nothing else.  Every serialized entry is
    [(str(k), v)] for an entry [(k, v)] of the returned mapping; the
    serialized keys are the strings of the returned keys, each once, in the
    order in which they first occur; the value under a string is that of
    the last returned entry whose key has this string; and when the
    returned keys have pairwise distinct strings the serialized mapping is
    exactly the list of the [(str(k), v)], entry for entry and in the
    same order. *)
Theorem selection_is_serialized_stringified (w0 : World U) (e : Entry U)
    obj f sep ind (mt : ModuleType) (d : Py.dict (Key U) (Value U)) :
  e ∈ trace_of (main env) w0 ->
  call e = Cjson_dump obj f sep ind ->
  selection_returned mt (trace_of (main env) w0) = Some d ->
  exists inner,
    Py.get obj (json_key mt) = Some inner /\
    inner = Py.comprehension (ext_str env) d /\
    (forall s v, (s, v) ∈ inner -> exists k, (k, v) ∈ d /\ ext_str env k = s) /\
    Py.keys inner = first_occurrences (ext_str env <$> Py.keys d) /\
    NoDup (Py.keys inner) /\
    Py.keys inner `sublist_of` (ext_str env <$> Py.keys d) /\
    (forall k, k ∈ Py.keys d -> ext_str env k ∈ Py.keys inner) /\
    (forall d1 k v d2,
       d = d1 ++ (k, v) :: d2 ->
       (forall k2, k2 ∈ Py.keys d2 -> ext_str env k2 <> ext_str env k) ->
       Py.get inner (ext_str env k) = Some v) /\
    (NoDup (ext_str env <$> Py.keys d) -> inner = stringified env d).
Proof.
  intros He Hc Hsel.
  pose proof (dumped_object w0 _ _ _ _ (elem_of_dumps _ _ _ _ _ _ He Hc))
    as ->.
  assert (Hd : selected mt (trace_of (main env) w0) = d)
    by (unfold selected; by rewrite Hsel).
  exists (Py.comprehension (ext_str env) d). split_and!.
  - destruct mt; cbn; by rewrite Hd.
  - done.
  - intros s v. apply elem_of_comprehension.
  - apply comprehension_keys_first.
  - apply comprehension_wf.
  - apply comprehension_keys_sublist.
  - apply comprehension_keys_complete.
  - intros d1 k v d2 -> Hlast. by apply comprehension_last_wins.
  - apply comprehension_distinct.
Qed.

End MainFacts.

(** ** [save_selected_submatrix] *)

Section SaveFacts.
Context {U : Externals} (env : Collaborators U).
Implicit Types (mlp attention : Py.dict (Key U) (Value U)).

(** The calls of [save_selected_submatrix]: [open], then, if the file is
    open, [json.dump] and [close]. *)
Lemma save_trace mlp attention (path : string) (w : World U) :
  let obj :=
    [("selected_mlp_submatrix", Py.comprehension (ext_str env) mlp);
     ("selected_attention_submatrix",
      Py.comprehension (ext_str env) attention)] in
  match ext_open env path "w" w with
  | (w1, Raised x) =>
      trace_of (save_selected_submatrix env mlp attention path) w
      = [{| pre := w; call := Copen path "w"; outcome := Raised x |}]
  | (w1, Returned f) =>
      exists o2 o3,
        trace_of (save_selected_submatrix env mlp attention path) w
        = [{| pre := w; call := Copen path "w";
              outcome := Returned (RFile f) |};
           {| pre := w1; call := Cjson_dump obj f (",", ":") None;
              outcome := o2 |};
           {| pre := (ext_json_dump env obj f (",", ":") None w1).1;
              call := Cclose f; outcome := o3 |}]
  end.
Proof.
  cbn zeta. unfold trace_of, save_selected_submatrix, with_open, finally,
    open, json_dump, close, perform, bind.
  rewrite combined_object.
  destruct (ext_open env path "w" w) as [w1 [f|x]]; [|done].
  destruct (ext_json_dump env _ f _ _ w1) as [w2 [[]|x2]]; cbn;
    destruct (ext_close env f w2) as [w3 [[]|x3]]; cbn; by eexists _, _.
Qed.

Lemma save_dumps mlp attention (path : string) (w : World U)
    (e : Entry U) obj f sep ind :
  e ∈ trace_of (save_selected_submatrix env mlp attention path) w ->
  call e = Cjson_dump obj f sep ind ->
  obj = [("selected_mlp_submatrix", Py.comprehension (ext_str env) mlp);
         ("selected_attention_submatrix",
          Py.comprehension (ext_str env) attention)].
Proof.
  intros He Hc. pose proof (save_trace mlp attention path w) as Ht.
  cbn zeta in Ht.
  destruct (ext_open env path "w" w) as [w1 [f'|x]].
  - destruct Ht as (o2 & o3 & Ht). rewrite Ht in He.
    rewrite !elem_of_cons, elem_of_nil in He.
    destruct He as [->|[->|[->|[]]]]; cbn in Hc; congruence.
  - rewrite Ht in He. apply list_elem_of_singleton in He as ->. done.
Qed.

(** C7: the mapping [save_selected_submatrix] serializes for an input
    dictionary is its comprehension over [str]: when the keys of the input
    have pairwise distinct strings it is exactly the list of the
    [(str(k), v)], one entry for each entry [(k, v)] of the input and as
    many; when two distinct keys of the input have the same string, the
    output holds a single entry under that string and is shorter than the
    input. *)
Theorem keys_are_stringified mlp attention (path : string) (w : World U)
    (e : Entry U) obj f sep ind (key : string)
    (d : Py.dict (Key U) (Value U)) :
  e ∈ trace_of (save_selected_submatrix env mlp attention path) w ->
  call e = Cjson_dump obj f sep ind ->
  (key, d) ∈ [("selected_mlp_submatrix", mlp);
              ("selected_attention_submatrix", attention)] ->
  exists inner,
    Py.get obj key = Some inner /\
    (NoDup (ext_str env <$> Py.keys d) ->
     inner = stringified env d /\ length inner = length d) /\
    (forall k1 v1 k2 v2,
       (k1, v1) ∈ d -> (k2, v2) ∈ d -> k1 <> k2 ->
       ext_str env k1 = ext_str env k2 ->
       (exists v, forall v', (ext_str env k1, v') ∈ inner <-> v' = v) /\
       length inner < length d).
Proof.
  intros He Hc Hkey. rewrite (save_dumps _ _ _ _ _ _ _ _ _ He Hc).
  exists (Py.comprehension (ext_str env) d). split_and!.
  - rewrite !elem_of_cons, elem_of_nil in Hkey.
    by destruct Hkey as [[= -> ->]|[[= -> ->]|[]]].
  - intros Hnd. rewrite (comprehension_distinct _ _ Hnd).
    split; [done|]. by rewrite length_map.
  - intros k1 v1 k2 v2 H1 H2 Hne Hstr. split.
    + apply comprehension_single. by apply (elem_of_keys _ _ v1).
    + by apply (comprehension_collapse_keys _ _ k1 v1 k2 v2).
Qed.

End SaveFacts.

(** ** [save_selected_submatrix] on references *)

Section HeapFacts.
Context {U : Externals} `{EqDecision (Key U)} (env : Collaborators U).
Implicit Types (σ : gmap Heap.loc (Py.dict (Heap.hkey U) (Heap.hval U))).
Implicit Types (l : Heap.loc).

(** The loop of a comprehension stores the images of the items, in order,
    into the dictionary under construction and touches nothing else. *)
Lemma hfor_setitem (f : Heap.hkey U -> Heap.hkey U) l'
    (kvs : list (Heap.hkey U * Heap.hval U)) σ (w : World U) :
  Heap.hfor kvs (fun kv => Heap.hsetitem l' (f kv.1) kv.2) σ w
  = (alter (fun d => Py.update d (map (fun kv => (f kv.1, kv.2)) kvs)) l' σ,
     (w, [], Returned tt)).
Proof.
  revert σ. induction kvs as [|[k v] kvs IH]; intros σ; cbn.
  - unfold Heap.hret. f_equal. symmetry. by apply alter_id.
  - unfold Heap.hbind, Heap.hsetitem at 1. rewrite IH. cbn.
    f_equal. rewrite alter_alter_eq. done.
Qed.

(** A comprehension allocates one new dictionary, which holds the images
    of the items of the dictionary it reads. *)
Lemma hcomprehension_run (f : Heap.hkey U -> Heap.hkey U) l σ (w : World U) :
  Heap.hcomprehension f l σ w
  = (<[fresh (dom σ) :=
         Py.comprehension f (default [] (σ !! l))]> σ,
     (w, [], Returned (fresh (dom σ)))).
Proof.
  unfold Heap.hcomprehension, Heap.hbind, Heap.new_dict, Heap.hitems,
    Heap.hret.
  cbn. rewrite hfor_setitem. cbn. f_equal.
  rewrite alter_insert_eq. f_equal. unfold Py.comprehension, Py.items.
  do 2 f_equal.
  destruct (decide (fresh (dom σ) = l)) as [<-|Hne].
  - rewrite lookup_insert_eq.
    by rewrite (not_elem_of_dom_1 _ _ (is_fresh (dom σ))).
  - by rewrite lookup_insert_ne.
Qed.

(** The store and the run of [save_selected_submatrix], step by step. *)
Lemma heap_save_run σ (w : World U) (mlp attention : Heap.loc)
    (path : string) :
  let l1 := fresh (dom σ) in
  let σ1 := <[l1 := Py.comprehension (Heap.hstr env) (default [] (σ !! mlp))]> σ in
  let l2 := fresh (dom σ1) in
  let σ2 :=
    <[l2 := Py.comprehension (Heap.hstr env) (default [] (σ1 !! attention))]>
      σ1 in
  let l3 := fresh (dom σ2) in
  let combined :=
    [(Heap.HStr "selected_mlp_submatrix", Heap.HRef l1);
     (Heap.HStr "selected_attention_submatrix", Heap.HRef l2)] in
  let σ3 := <[l3 := combined]> σ2 in
  let l4 := fresh (dom σ3) in
  let σ4 := <[l4 := combined]> σ3 in
  Heap.save_selected_submatrix env mlp attention path σ w
  = match ext_open env path "w" w with
    | (w1, Raised e) =>
        (σ3, (w1, [{| pre := w; call := Copen path "w"; outcome := Raised e |}],
              Raised e))
    | (w1, Returned f) =>
        let r :=
          finally (json_dump env (Heap.read_object σ4 l4) f (",", ":") None)
            (close env f) w1 in
        (σ4,
         (r.1.1,
          {| pre := w; call := Copen path "w";
             outcome := Returned (RFile f) |} :: r.1.2,
          r.2))
    end.
Proof.
  cbn zeta. unfold Heap.save_selected_submatrix.
  unfold Heap.hbind at 1. rewrite hcomprehension_run.
  unfold Heap.hbind at 1. rewrite hcomprehension_run.
  unfold Heap.hbind at 1. unfold Heap.new_dict at 1. cbn beta iota zeta.
  unfold Heap.hbind at 1. unfold Heap.hsetitem at 1. cbn beta iota zeta.
  unfold Heap.hbind at 1. unfold Heap.hsetitem at 1. cbn beta iota zeta.
  rewrite alter_alter_eq, alter_insert_eq. cbn [compose Py.setitem].
  unfold Heap.hbind at 1, Heap.lift at 1, open, perform.
  destruct (ext_open env path "w" w) as [w1 [f|e]]; cbn beta iota zeta;
    [|done].
  unfold Heap.hfinally, Heap.hbind. rewrite hcomprehension_run.
  cbn beta iota zeta. rewrite lookup_insert_eq. cbn [default].
  unfold Heap.hjson_dump, Heap.lift, finally.
  set (σ4 := <[_ := _]> (<[_ := _]> _)).
  destruct (json_dump env _ f _ _ w1) as [[w2 t2] o2].
  destruct (close env f w2) as [[w3 t3] o3]. cbn. done.
Qed.

Lemma lookup_insert_fresh σ (x : Py.dict (Heap.hkey U) (Heap.hval U)) l d :
  σ !! l = Some d -> <[fresh (dom σ) := x]> σ !! l = Some d.
Proof.
  intros Hl. rewrite lookup_insert_ne; [done|]. intros Heq.
  pose proof (is_fresh (dom σ)) as Hfresh. rewrite Heq in Hfresh.
  apply not_elem_of_dom in Hfresh. congruence.
Qed.

(** C8: [save_selected_submatrix] leaves its two arguments, and every
    other dictionary its caller holds, as they were: their items, keys
    and values, are the same after the call, whether it returns or
    raises; what it stores it stores into dictionaries it has created
    itself, and the only calls it makes are [open] on the given path,
    [json.dump] and [close]. *)
Theorem arguments_are_not_mutated σ (w : World U) (mlp attention : Heap.loc)
    (path : string)
    (d_mlp d_attention : Py.dict (Heap.hkey U) (Heap.hval U)) :
  σ !! mlp = Some d_mlp ->
  σ !! attention = Some d_attention ->
  let r := Heap.save_selected_submatrix env mlp attention path σ w in
  r.1 !! mlp = Some d_mlp /\
  r.1 !! attention = Some d_attention /\
  (forall l d, σ !! l = Some d -> r.1 !! l = Some d) /\
  (forall e, e ∈ r.2.1.2 ->
     call e = Copen path "w" \/
     (exists obj f, call e = Cjson_dump obj f (",", ":") None) \/
     (exists f, call e = Cclose f)).
Proof.
  intros Hmlp Hatt. cbn zeta.
  assert (Hframe : forall l d, σ !! l = Some d ->
    (Heap.save_selected_submatrix env mlp attention path σ w).1 !! l = Some d).
  { intros l d Hl. rewrite heap_save_run.
    destruct (ext_open env path "w" w) as [w1 [f|x]]; cbn [fst];
      repeat apply lookup_insert_fresh; done. }
  split_and!; [by apply Hframe|by apply Hframe|done|].
  rewrite heap_save_run.
  destruct (ext_open env path "w" w) as [w1 [f|x]]; cbn [fst snd].
  - unfold finally, json_dump, close, perform.
    destruct (ext_json_dump env _ f _ _ w1) as [w2 [[]|x2]];
      destruct (ext_close env f w2) as [w3 [[]|x3]]; cbn;
      intros e He; rewrite !elem_of_cons, elem_of_nil in He;
      destruct He as [->|[->|[->|[]]]]; cbn; eauto.
  - intros e He. apply list_elem_of_singleton in He as ->. by left.
Qed.

(** *** The two embeddings agree *)

Lemma setitem_map_inj {A B A' B'} `{EqDecision A, EqDecision A'}
    (g : A -> A') (h : B -> B') `{!Inj (=) (=) g}
    (d : Py.dict A B) k v :
  Py.setitem (map (fun kv => (g kv.1, h kv.2)) d) (g k) (h v)
  = map (fun kv => (g kv.1, h kv.2)) (Py.setitem d k v).
Proof.
  induction d as [|[k0 v0] d IH]; cbn; [done|].
  destruct (decide (k0 = k)) as [->|Hne].
  - by rewrite decide_True.
  - rewrite decide_False by (intros Heq; by apply Hne, (inj g)).
    cbn. by rewrite IH.
Qed.

Lemma update_map_inj {A B A' B'} `{EqDecision A, EqDecision A'}
    (g : A -> A') (h : B -> B') `{!Inj (=) (=) g}
    (d kvs : Py.dict A B) :
  Py.update (map (fun kv => (g kv.1, h kv.2)) d)
    (map (fun kv => (g kv.1, h kv.2)) kvs)
  = map (fun kv => (g kv.1, h kv.2)) (Py.update d kvs).
Proof.
  unfold Py.update. revert d.
  induction kvs as [|[k v] kvs IH]; intros d; cbn; [done|].
  by rewrite setitem_map_inj, IH.
Qed.

#[local] Instance HStr_inj : Inj (=) (=) (@Heap.HStr U).
Proof. by intros ?? [= ->]. Qed.

#[local] Arguments Py.comprehension : simpl never.
#[local] Arguments Heap.read_inner : simpl never.

Lemma read_inner_comprehension (d : Py.dict (Key U) (Value U)) :
  Heap.read_inner (Py.comprehension (Heap.hstr env) (Heap.as_object d))
  = Py.comprehension (ext_str env) d.
Proof.
  unfold Py.comprehension, Py.items, Heap.as_object.
  assert (Hmap :
    map (fun kv : Heap.hkey U * Heap.hval U => (Heap.hstr env kv.1, kv.2))
      (map (fun kv : Key U * Value U => (Heap.HKey kv.1, Heap.HVal kv.2)) d)
    = map (fun kv : string * Value U => (Heap.HStr kv.1, Heap.HVal kv.2))
        (map (fun kv : Key U * Value U => (ext_str env kv.1, kv.2)) d))
    by (by rewrite !map_map).
  rewrite Hmap.
  pose proof (update_map_inj (@Heap.HStr U) (@Heap.HVal U) []
    (map (fun kv : Key U * Value U => (ext_str env kv.1, kv.2)) d)) as Hu.
  change (map _ [] : Py.dict (Heap.hkey U) (Heap.hval U))
    with ([] : Py.dict (Heap.hkey U) (Heap.hval U)) in Hu.
  rewrite Hu.
  clear Hu Hmap. generalize (Py.update []
    (map (fun kv : Key U * Value U => (ext_str env kv.1, kv.2)) d)).
  intros l. unfold Heap.read_inner.
  induction l as [|[s v] l IH]; cbn; [done|]. by rewrite IH.
Qed.

(** On dictionaries of the collaborators, the run on references makes the
    calls, and has the outcome, of the run on values. *)
Theorem heap_save_refines σ (w : World U) (mlp attention : Heap.loc)
    (path : string) (d_mlp d_attention : Py.dict (Key U) (Value U)) :
  σ !! mlp = Some (Heap.as_object d_mlp) ->
  σ !! attention = Some (Heap.as_object d_attention) ->
  (Heap.save_selected_submatrix env mlp attention path σ w).2
  = save_selected_submatrix env d_mlp d_attention path w.
Proof.
  intros Hmlp Hatt. rewrite heap_save_run.
  unfold save_selected_submatrix, with_open, bind, open, perform.
  rewrite combined_object.
  destruct (ext_open env path "w" w) as [w1 [f|x]]; cbn [snd]; [|done].
  set (l1 := fresh (dom σ)).
  set (σ1 := <[l1 := _]> σ).
  set (l2 := fresh (dom σ1)).
  set (σ2 := <[l2 := _]> σ1).
  set (l3 := fresh (dom σ2)).
  set (σ3 := <[l3 := _]> σ2).
  set (l4 := fresh (dom σ3)).
  set (σ4 := <[l4 := _]> σ3).
  assert (H1 : σ1 !! l1 = Some
    (Py.comprehension (Heap.hstr env) (Heap.as_object d_mlp)))
    by (unfold σ1; by rewrite lookup_insert_eq, Hmlp).
  assert (Hatt1 : σ1 !! attention = Some (Heap.as_object d_attention))
    by (by apply lookup_insert_fresh).
  assert (H2 : σ2 !! l2 = Some
    (Py.comprehension (Heap.hstr env) (Heap.as_object d_attention)))
    by (unfold σ2; by rewrite lookup_insert_eq, Hatt1).
  assert (H1' : σ4 !! l1 = Some
    (Py.comprehension (Heap.hstr env) (Heap.as_object d_mlp)))
    by (by do 3 apply lookup_insert_fresh).
  assert (H2' : σ4 !! l2 = Some
    (Py.comprehension (Heap.hstr env) (Heap.as_object d_attention)))
    by (by do 2 apply lookup_insert_fresh).
  assert (Hobj : Heap.read_object σ4 l4
    = [("selected_mlp_submatrix", Py.comprehension (ext_str env) d_mlp);
       ("selected_attention_submatrix",
        Py.comprehension (ext_str env) d_attention)]).
  { assert (H4 : σ4 !! l4 = Some
      [(Heap.HStr "selected_mlp_submatrix", Heap.HRef l1);
       (Heap.HStr "selected_attention_submatrix", Heap.HRef l2)])
      by (unfold σ4; by rewrite lookup_insert_eq).
    unfold Heap.read_object. rewrite H4. cbn.
    rewrite H1', H2'. cbn. by rewrite !read_inner_comprehension. }
  rewrite Hobj.
  destruct (finally _ _ w1) as [[w2 t2] o2]. done.
Qed.

End HeapFacts.

(** ** Further properties of the runs of [main] *)

Section MoreMainFacts.
Context {U : Externals} (env : Collaborators U).

(** X1: [main] catches nothing.  It returns exactly when every call it made
    returned; when it raises, the exception is one a call raised; and a
    call that raises is the last call of the run, but for a [json.dump]
    that raises, which is followed by the [close] of the [with] block and
    nothing else. *)
Theorem exceptions_propagate (w0 : World U) :
  (is_returned (outcome_of (main env) w0) = true <->
   forall e, e ∈ trace_of (main env) w0 -> is_returned (outcome e) = true) /\
  (forall x, outcome_of (main env) w0 = Raised x ->
     exists e, e ∈ trace_of (main env) w0 /\ outcome e = Raised x) /\
  (forall t1 e t2,
     trace_of (main env) w0 = t1 ++ e :: t2 ->
     is_returned (outcome e) = false ->
     t2 = [] \/
     exists obj f sep ind c g,
       call e = Cjson_dump obj f sep ind /\ t2 = [c] /\ call c = Cclose g).
Proof.
  destruct (run_discipline env w0) as (Hret & Hhalt & Hexn & _).
  split_and!.
  - rewrite Hret. apply all_returned_spec.
  - intros x Hx. rewrite Hx in Hexn. apply elem_of_raised.
    destruct (raised (trace_of (main env) w0)) as [|y l] using rev_ind;
      [done|].
    rewrite last_snoc in Hexn. injection Hexn as ->.
    apply elem_of_app. right. left.
  - by apply halts_after_raise_split.
Qed.

(** X2: in a run of [main] the files closed are the files [open] returned:
    the file is closed once, also when [json.dump] raises, and nothing is
    closed when [open] raises; and what [json.dump] writes to is the file
    [open] returned. *)
Theorem opened_file_is_closed (w0 : World U) :
  closes (trace_of (main env) w0) = opened_files (trace_of (main env) w0) /\
  length (opened_files (trace_of (main env) w0)) <= 1 /\
  (forall obj f sep ind,
     (obj, f, sep, ind) ∈ dumps (trace_of (main env) w0) ->
     opened_files (trace_of (main env) w0) = [f]).
Proof.
  destruct (run_discipline env w0) as (_ & _ & _ & Hclose & _).
  pose proof (serialization_shape env w0) as Hshape.
  pose proof (opened_files_length (trace_of (main env) w0)) as Hle.
  split; [done|].
  destruct (opens (trace_of (main env) w0)) as [|[p m] [|? ?]];
    [| |done]; cbn in Hle.
  - destruct Hshape as [Hd _]. rewrite Hd. split; [lia|].
    intros ? ? ? ? Hin. by apply elem_of_nil in Hin.
  - split; [lia|]. destruct Hshape as (_ & _ & Hfiles).
    destruct (opened_files (trace_of (main env) w0)) as [|f' [|? ?]];
      [| |done].
    + destruct Hfiles as [Hd _]. rewrite Hd.
      intros ? ? ? ? Hin. by apply elem_of_nil in Hin.
    + intros obj f sep ind Hin. rewrite Hfiles in Hin.
      apply list_elem_of_singleton in Hin. by injection Hin as _ -> _ _.
Qed.

(** X4: the log line [Submatrix file is saved to <path>] tells the truth.
    A run that writes it has opened that very path, once, for writing;
    [open], [json.dump] and [close] all returned; one object was dumped and
    the file was closed once.  The line is written at most once. *)
Theorem saved_log_is_truthful (w0 : World U) (path : string) :
  path ∈ saved_logs (trace_of (main env) w0) ->
  saved_logs (trace_of (main env) w0) = [path] /\
  opens (trace_of (main env) w0) = [(path, "w")] /\
  (forall e, e ∈ trace_of (main env) w0 ->
     stage_of (call e) = Some Serialization ->
     is_returned (outcome e) = true) /\
  length (dumps (trace_of (main env) w0)) = 1 /\
  length (closes (trace_of (main env) w0)) = 1.
Proof.
  intros Hin.
  destruct (run_discipline env w0)
    as (_ & _ & _ & _ & _ & _ & _ & _ & _ & Hsaved & _).
  destruct (saved_logs (trace_of (main env) w0)) as [|p [|? ?]];
    [by apply elem_of_nil in Hin| |done].
  apply list_elem_of_singleton in Hin as ->.
  destruct Hsaved as (Hopen & Hall & Hdumps & Hcloses).
  split_and!; try done.
  intros e He Hstage.
  apply (proj1 (all_returned_spec _) Hall).
  by apply elem_of_serialization_entries.
Qed.

(** X5: [main] calls [open] only when all that comes before it has
    succeeded.  In a run that calls [open], every call made before the
    [open] returned; in particular [train] was called once and returned,
    the selection was announced, and every [select_submatrix] call
    returned.  So in a run in which the training or a selection raises,
    [main] makes no [open] call. *)
Theorem file_opened_after_selections (w0 : World U) (path mode : string) :
  (path, mode) ∈ opens (trace_of (main env) w0) ->
  count_calls trains (trace_of (main env) w0) = 1 /\
  count_calls announces_selection (trace_of (main env) w0) = 1 /\
  (forall e, e ∈ trace_of (main env) w0 ->
     trains (call e) = true \/ is_selection (call e) = true ->
     is_returned (outcome e) = true) /\
  (forall t1 e t2 x,
     trace_of (main env) w0 = t1 ++ e :: t2 ->
     call e = Copen path mode ->
     x ∈ t1 -> is_returned (outcome x) = true).
Proof.
  intros Hin.
  assert (Hopens : opens (trace_of (main env) w0) <> []).
  { intros Hnil. rewrite Hnil in Hin. by apply elem_of_nil in Hin. }
  destruct (run_discipline env w0)
    as (_ & Hhalt & _ & _ & _ & _ & _ & _ & _ & _ & _ & Hsel).
  destruct (stages_shape env w0) as (_ & _ & _ & Htrain & _).
  destruct (trace_replays env w0) as [_ Htrained].
  destruct (Hsel Hopens) as [Hall Hann].
  split_and!; [by apply Htrain|done| |].
  - intros e He [Hc|Hc].
    + by apply (proj1 (Forall_forall _ _) (Htrained Hopens) e He).
    + apply (proj1 (all_returned_spec _) Hall).
      by apply elem_of_selections'.
  - intros t1 e t2 x Ht Hc Hx.
    apply (returned_before _ Hhalt t1 e t2 x Ht); [|done].
    intros g. by rewrite Hc.
Qed.

(** X6: the life of the profiler.  [FlopsProfiler] is built over the model
    [initialize_model] returned; [start_profile], [stop_profile] and
    [log_training_metrics] are each called at most once, on the profiler
    [FlopsProfiler] returned, [stop_profile] only in a run that called
    [start_profile] and [log_training_metrics] only in a run that called
    [stop_profile]; [stop_profile] is called exactly when the file was
    announced as saved, so a run that raises before that leaves the
    profiler running; a run that returns has called each of the three
    once. *)
Theorem profiler_lifecycle (w0 : World U) :
  (forall e model, e ∈ trace_of (main env) w0 ->
     call e = CFlopsProfiler model ->
     built_model (trace_of (main env) w0) = Some model) /\
  (forall p, p ∈ profilers_used (trace_of (main env) w0) ->
     built_profiler (trace_of (main env) w0) = Some p) /\
  count_calls logs_metrics (trace_of (main env) w0)
    <= count_calls stops_profile (trace_of (main env) w0) /\
  count_calls stops_profile (trace_of (main env) w0)
    <= count_calls starts_profile (trace_of (main env) w0) /\
  count_calls starts_profile (trace_of (main env) w0) <= 1 /\
  count_calls stops_profile (trace_of (main env) w0)
    = length (saved_logs (trace_of (main env) w0)) /\
  (is_returned (outcome_of (main env) w0) = true ->
   count_calls starts_profile (trace_of (main env) w0) = 1 /\
   count_calls stops_profile (trace_of (main env) w0) = 1 /\
   count_calls logs_metrics (trace_of (main env) w0) = 1).
Proof.
  destruct (run_discipline env w0)
    as (_ & _ & _ & _ & Hstart & Hstop & Hle & Hmetrics & Hused & _).
  destruct (wiring_shape env w0) as (Hwire & _ & _ & _ & Hret).
  split_and!; try done.
  - intros e model He Hc.
    apply (proj1 (Forall_forall _ _) Hwire) in He. by rewrite Hc in He.
  - by apply Forall_forall.
  - rewrite Hstop. apply count_logs_saved.
Qed.

(** X7: the trainer is built from what the run has prepared.  Every
    [SMTTrainer] construction is handed the model [initialize_model]
    returned for [model_args.model_name_or_path] and the five keyword
    arguments of the script ([device_map] being ["auto"]), the parsed
    training arguments, [datasets["train"]] and [datasets["test"]] of the
    mapping [prepare_datasets] returned for the parsed script arguments,
    the tokenizer [load_and_configure_tokenizer] returned, and a list of
    callbacks holding the one [GPUMemoryStatsCallback] built. *)
Theorem trainer_built_from_components (w0 : World U) (e : Entry U)
    model args train_dataset eval_dataset tokenizer mode callbacks :
  e ∈ trace_of (main env) w0 ->
  call e = CSMTTrainer model args train_dataset eval_dataset tokenizer mode
             callbacks ->
  exists script_args model_args datasets callback,
    parsed_args (trace_of (main env) w0)
      = Some (script_args, args, model_args) /\
    callbacks = [callback] /\
    (Cload_and_configure_tokenizer model_args, RTokenizer tokenizer)
      ∈ returned (trace_of (main env) w0) /\
    (Cinitialize_model (model_name_or_path model_args)
       [("revision", KwStr (model_revision model_args));
        ("trust_remote_code", KwBool (trust_remote_code model_args));
        ("attn_implementation", KwOptStr (attn_implementation model_args));
        ("torch_dtype", KwOptStr (torch_dtype model_args));
        ("device_map", KwStr "auto")],
     RModel model) ∈ returned (trace_of (main env) w0) /\
    (Cprepare_datasets (dataset_name script_args)
       (dataset_config script_args) (dataset_train_split script_args)
       (seed args) (test_set_percentage args),
     RDatasetDict datasets) ∈ returned (trace_of (main env) w0) /\
    (Cgetitem datasets "train", RDataset train_dataset)
      ∈ returned (trace_of (main env) w0) /\
    (Cgetitem datasets "test", RDataset eval_dataset)
      ∈ returned (trace_of (main env) w0) /\
    (CGPUMemoryStatsCallback, RCallback callback)
      ∈ returned (trace_of (main env) w0).
Proof.
  intros He Hc.
  pose proof (constructions_shape env w0) as Hshape.
  apply (elem_of_constructions _ _ _ _ _ _ _ _ _ He) in Hc as Hin.
  apply (proj1 (Forall_forall _ _) Hshape) in Hin.
  destruct Hin as (sa & ta & ma & tok & m & ds & tr & ev & cb &
                   Hp & Hcall & Htok & Hm & Hds & Htr & Hev & Hcb).
  rewrite Hc in Hcall. injection Hcall as -> -> -> -> -> _ ->.
  by exists sa, ma, ds, cb.
Qed.

(** X9: what [main] hands to [json.dump] never has a key twice.  The
    object has exactly the two keys [selected_mlp_submatrix] and
    [selected_attention_submatrix], in this order, and the keys of each of
    the two mappings are pairwise distinct, whatever [select_submatrix]
    returned and whatever [str] makes of its keys. *)
Theorem serialized_keys_distinct (w0 : World U) obj f sep ind :
  (obj, f, sep, ind) ∈ dumps (trace_of (main env) w0) ->
  Py.keys obj = ["selected_mlp_submatrix"; "selected_attention_submatrix"] /\
  (forall key inner, (key, inner) ∈ obj -> Py.wf inner).
Proof.
  intros Hin. rewrite (dumped_object env w0 _ _ _ _ Hin). split; [done|].
  intros key inner Hk. rewrite !elem_of_cons, elem_of_nil in Hk.
  destruct Hk as [[= -> ->]|[[= -> ->]|[]]]; apply comprehension_wf.
Qed.

(** X10: the test [ratio >= 0] on the edge values of a float.  A ratio
    that is NaN fails it, as a negative one does: no selection for that
    module type and an empty mapping under its key.  Negative zero and
    plus infinity pass it: a run that reaches the file has invoked
    [select_submatrix] for that module type, once. *)
Theorem ratio_edge_values (w0 : World U)
    script_args training_args model_args (mt : ModuleType) :
  parsed_args (trace_of (main env) w0)
    = Some (script_args, training_args, model_args) ->
  (downsample_ratio mt training_args = S754_nan ->
   count_calls (selects mt) (trace_of (main env) w0) = 0 /\
   (forall obj f sep ind,
      (obj, f, sep, ind) ∈ dumps (trace_of (main env) w0) ->
      Py.get obj (json_key mt) = Some [])) /\
  (downsample_ratio mt training_args = S754_zero true \/
   downsample_ratio mt training_args = S754_infinity false ->
   opens (trace_of (main env) w0) <> [] ->
   count_calls (selects mt) (trace_of (main env) w0) = 1).
Proof.
  intros Hparsed.
  pose proof (selection_counts env w0 mt) as Hcount.
  rewrite Hparsed in Hcount. destruct Hcount as (Hle & Heq & Hempty & _).
  split.
  - intros Hnan. rewrite Hnan in Hle, Hempty. cbn in Hle. split; [lia|].
    intros obj f sep ind Hin. rewrite (dumped_object env w0 _ _ _ _ Hin).
    destruct mt; cbn; by rewrite (Hempty eq_refl).
  - intros Hedge Hopens. rewrite (Heq Hopens).
    by destruct Hedge as [->| ->].
Qed.

(** X11: the order of the selections.  [select_submatrix] is invoked for
    the MLP blocks before the attention blocks, for each at most once; and
    a run that goes on to open the file has invoked it for exactly the
    module types whose ratio passes [>= 0], in this order. *)
Theorem selection_order (w0 : World U)
    script_args training_args model_args :
  parsed_args (trace_of (main env) w0)
    = Some (script_args, training_args, model_args) ->
  selected_types (trace_of (main env) w0) `sublist_of` [MLP; ATTENTION] /\
  (opens (trace_of (main env) w0) <> [] ->
   selected_types (trace_of (main env) w0)
   = List.filter (fun mt => Py.ge_zero (downsample_ratio mt training_args))
       [MLP; ATTENTION]).
Proof.
  intros Hparsed.
  destruct (run_discipline env w0)
    as (_ & _ & _ & _ & _ & _ & _ & _ & _ & _ & Hsub & _).
  destruct (wiring_shape env w0) as (_ & Hsel & _).
  rewrite Hparsed in Hsel. by split.
Qed.

(** X12: training and its report.  [train] is called on the trainer
    [SMTTrainer] returned; [log_training_metrics] is handed
    [trainer.state] and [trainer.sum_training_step_time] of that trainer,
    both as they are when [log_training_metrics] is called, and the
    profiler [FlopsProfiler] returned; [TrainingMonitor.memory_stats] is
    called at most twice, and twice in a run that reaches the selection. *)
Theorem training_is_reported (w0 : World U) :
  (forall e trainer, e ∈ trace_of (main env) w0 ->
     call e = Ctrain trainer ->
     built_trainer (trace_of (main env) w0) = Some trainer) /\
  (forall e state time p, e ∈ trace_of (main env) w0 ->
     call e = Clog_training_metrics state time p ->
     exists trainer,
       built_trainer (trace_of (main env) w0) = Some trainer /\
       state = attr_state env trainer (pre e) /\
       time = attr_sum_training_step_time env trainer (pre e) /\
       built_profiler (trace_of (main env) w0) = Some p) /\
  count_calls is_memory_stats (trace_of (main env) w0) <= 2 /\
  (count_calls announces_selection (trace_of (main env) w0) = 1 ->
   count_calls is_memory_stats (trace_of (main env) w0) = 2).
Proof.
  destruct (wiring_shape env w0) as (Hwire & _ & Hle & Hmem & _).
  split_and!; try done.
  - intros e trainer He Hc.
    apply (proj1 (Forall_forall _ _) Hwire) in He. by rewrite Hc in He.
  - intros e state time p He Hc.
    apply (proj1 (Forall_forall _ _) Hwire) in He. by rewrite Hc in He.
Qed.

(** X13: the log lines report what the run works with.  The three
    argument lines show the parsed arguments, the [Model Kwargs] line the
    keyword arguments handed to [initialize_model], the two ratio lines the
    parsed ratios, and the two [selected_..._submatrix] lines the mappings
    as [select_submatrix] returned them, keys not yet turned into strings,
    or the empty mapping when the selection was skipped. *)
Theorem logs_report_values (w0 : World U) (e : Entry U) (msg : LogMsg U) :
  e ∈ trace_of (main env) w0 ->
  call e = Clogger_info msg ->
  match msg with
  | LogSelectedMlp d => d = selected MLP (trace_of (main env) w0)
  | LogSelectedAttention d =>
      d = selected ATTENTION (trace_of (main env) w0)
  | LogSelectingSubmatrix | LogStartingTraining | LogTrainingCompleted
  | LogSaved _ => True
  | _ =>
      exists script_args training_args model_args,
        parsed_args (trace_of (main env) w0)
          = Some (script_args, training_args, model_args) /\
        match msg with
        | LogScriptArguments a => a = script_args
        | LogTrainingArguments a => a = training_args
        | LogModelArguments a => a = model_args
        | LogModelKwargs kw =>
            kw = [("revision", KwStr (model_revision model_args));
                  ("trust_remote_code",
                   KwBool (trust_remote_code model_args));
                  ("attn_implementation",
                   KwOptStr (attn_implementation model_args));
                  ("torch_dtype", KwOptStr (torch_dtype model_args));
                  ("device_map", KwStr "auto")]
        | LogMlpRatio r => r = downsample_mlp_blocks_ratio training_args
        | LogAttentionRatio r =>
            r = downsample_attention_blocks_ratio training_args
        | _ => True
        end
  end.
Proof.
  intros He Hc. destruct (wiring_shape env w0) as (Hwire & _).
  apply (proj1 (Forall_forall _ _) Hwire) in He. by rewrite Hc in He.
Qed.

End MoreMainFacts.

(** ** More on [save_selected_submatrix] *)

Section MoreSaveFacts.
Context {U : Externals} (env : Collaborators U).
Implicit Types (mlp attention : Py.dict (Key U) (Value U)).

(** X3: [save_selected_submatrix] and its file.  It calls [open] once, on
    the path it is given and for writing; it closes the file [open]
    returned, once, also when [json.dump] raises, and closes nothing when
    [open] raises; [json.dump] is called once the file is open, with the
    separators [(",", ":")] and no indentation; it returns when no call
    raised, and otherwise raises what the last call that raised did, the
    exception of [close] taking the place of that of [json.dump]. *)
Theorem save_closes_its_file mlp attention (path : string) (w : World U) :
  opens (trace_of (save_selected_submatrix env mlp attention path) w)
    = [(path, "w")] /\
  closes (trace_of (save_selected_submatrix env mlp attention path) w)
    = opened_files
        (trace_of (save_selected_submatrix env mlp attention path) w) /\
  length (dumps (trace_of (save_selected_submatrix env mlp attention path) w))
    = length
        (opened_files
           (trace_of (save_selected_submatrix env mlp attention path) w)) /\
  (forall obj f sep ind,
     (obj, f, sep, ind)
       ∈ dumps (trace_of (save_selected_submatrix env mlp attention path) w)
     -> sep = (",", ":") /\ ind = None /\
        opened_files
          (trace_of (save_selected_submatrix env mlp attention path) w)
        = [f]) /\
  match outcome_of (save_selected_submatrix env mlp attention path) w with
  | Returned _ =>
      raised (trace_of (save_selected_submatrix env mlp attention path) w)
      = []
  | Raised x =>
      last (raised
              (trace_of (save_selected_submatrix env mlp attention path) w))
      = Some x
  end.
Proof.
  unfold trace_of, outcome_of, save_selected_submatrix, with_open, finally,
    open, json_dump, close, perform, bind.
  rewrite combined_object.
  destruct (ext_open env path "w" w) as [w1 [f|x]]; cbn; [|split_and!; try done].
  - destruct (ext_json_dump env _ f _ _ w1) as [w2 [[]|x2]]; cbn;
      destruct (ext_close env f w2) as [w3 [[]|x3]]; cbn.
    all: split_and!; try done.
    all: intros ? ? ? ? Hin; apply list_elem_of_singleton in Hin.
    all: by injection Hin as _ -> -> ->.
  - intros ? ? ? ? Hin. by apply elem_of_nil in Hin.
Qed.

(** X8: which value survives a collision.  When several keys of a mapping
    given to [save_selected_submatrix] have the same string, the value
    serialized under that string is that of the last of them in the order
    of the mapping. *)
Theorem last_value_wins mlp attention (path : string) (w : World U)
    (e : Entry U) obj f sep ind (key : string)
    (d d1 d2 : Py.dict (Key U) (Value U)) k v :
  e ∈ trace_of (save_selected_submatrix env mlp attention path) w ->
  call e = Cjson_dump obj f sep ind ->
  (key, d) ∈ [("selected_mlp_submatrix", mlp);
              ("selected_attention_submatrix", attention)] ->
  d = d1 ++ (k, v) :: d2 ->
  (forall k2, k2 ∈ Py.keys d2 -> ext_str env k2 <> ext_str env k) ->
  exists inner,
    Py.get obj key = Some inner /\
    Py.get inner (ext_str env k) = Some v.
Proof.
  intros He Hc Hkey -> Hlast.
  rewrite (save_dumps env _ _ _ _ _ _ _ _ _ He Hc).
  exists (Py.comprehension (ext_str env) (d1 ++ (k, v) :: d2)).
  split; [|by apply comprehension_last_wins].
  rewrite !elem_of_cons, elem_of_nil in Hkey.
  by destruct Hkey as [[= -> <-]|[[= -> <-]|[]]].
Qed.

End MoreSaveFacts.

(** ** The properties on concrete runs *)

Example path_join_plain :
  Py.path_join "out" "selected_blocks.json" = "out/selected_blocks.json".
Proof. reflexivity. Qed.

Example path_join_slash :
  Py.path_join "out/" "selected_blocks.json" = "out/selected_blocks.json".
Proof. reflexivity. Qed.

Example str_of_integers :
  Py.str (Py.KInt 42) = "42" /\ Py.str (Py.KInt (-7)) = "-7" /\
  Py.str (Py.KInt 0) = "0" /\ Py.str (Py.KStr "1") = Py.str (Py.KInt 1).
Proof. repeat split; reflexivity. Qed.

Example ratio_tests :
  Py.ge_zero half = true /\ Py.ge_zero minus_one = false /\
  Py.lt_zero minus_one = true /\ Py.ge_zero S754_nan = false /\
  Py.lt_zero S754_nan = false /\ Py.ge_zero (S754_zero true) = true.
Proof. repeat split; reflexivity. Qed.

Example comprehension_collides :
  Py.comprehension Py.str (colliding_table MLP) = [("1", 30%Z); ("2", 20%Z)].
Proof. reflexivity. Qed.

Example toy_run_returns : outcome_of (main toy) 0%Z = Returned tt.
Proof. vm_compute. reflexivity. Qed.

Example toy_run_dumps :
  dumps (trace_of (main toy) 0%Z)
  = [(toy_object, "out/selected_blocks.json", (",", ":"), None)].
Proof. vm_compute. reflexivity. Qed.

Example skipping_run_dumps :
  dumps (trace_of (main toy_skipping) 0%Z)
  = [(empty_object, "out/selected_blocks.json", (",", ":"), None)] /\
  selections (trace_of (main toy_skipping) 0%Z) = [].
Proof. split; vm_compute; reflexivity. Qed.

Lemma toy_select_in_run (mt : ModuleType) :
  toy_select mt ∈ trace_of (main toy) 0%Z.
Proof.
  destruct mt;
    [apply (list_elem_of_lookup_2 _ 23)|apply (list_elem_of_lookup_2 _ 25)];
    vm_compute; reflexivity.
Defined.

Lemma toy_open_in_run : toy_open ∈ trace_of (main toy) 0%Z.
Proof. apply (list_elem_of_lookup_2 _ 27). vm_compute. reflexivity. Defined.

Lemma toy_dump_in_run : toy_dump toy_object ∈ trace_of (main toy) 0%Z.
Proof. apply (list_elem_of_lookup_2 _ 28). vm_compute. reflexivity. Defined.

Lemma toy_keeps_step : select_submatrix_keeps_step toy.
Proof. intros ? ? ? ? ? ? ? ? ?. reflexivity. Defined.

Lemma toy_never_raises args table : never_raises (toy_env args table).
Proof. intros c w. destruct c; reflexivity. Defined.

Lemma bumping_select_in_run :
  bumping_select MLP 7%Z ∈ trace_of (main toy_bumping) 0%Z /\
  bumping_select ATTENTION 8%Z ∈ trace_of (main toy_bumping) 0%Z.
Proof.
  split;
    [apply (list_elem_of_lookup_2 _ 23)|apply (list_elem_of_lookup_2 _ 25)];
    vm_compute; reflexivity.
Defined.

(** C1 on the toy run, in which no collaborator raises and both ratios
    are 0.5: the run returns; the selection is invoked once for [MLP] and
    once for [ATTENTION], each with the gradients and the ratio of its own
    module type; and both are handed the step count 7. *)
Lemma select_submatrix_arguments_witness :
  parsed_args (trace_of (main toy) 0%Z) = Some (toy_args half half) /\
  never_raises toy /\
  select_submatrix_keeps_step toy /\
  Py.ge_zero half = true /\
  is_returned (outcome_of (main toy) 0%Z) = true /\
  opens (trace_of (main toy) 0%Z) <> [] /\
  (count_calls (selects MLP) (trace_of (main toy) 0%Z) = 1 /\
   exists e model trainer,
     e ∈ trace_of (main toy) 0%Z /\
     built_model (trace_of (main toy) 0%Z) = Some model /\
     built_trainer (trace_of (main toy) 0%Z) = Some trainer /\
     call e
     = @Cselect_submatrix ToyU model MLP (pre e) false "out" half MLP) /\
  (count_calls (selects ATTENTION) (trace_of (main toy) 0%Z) = 1 /\
   exists e model trainer,
     e ∈ trace_of (main toy) 0%Z /\
     built_model (trace_of (main toy) 0%Z) = Some model /\
     built_trainer (trace_of (main toy) 0%Z) = Some trainer /\
     call e
     = @Cselect_submatrix ToyU model ATTENTION (pre e) false "out" half
         ATTENTION) /\
  toy_select MLP ∈ trace_of (main toy) 0%Z /\
  toy_select ATTENTION ∈ trace_of (main toy) 0%Z /\
  (exists trainer,
     built_trainer (trace_of (main toy) 0%Z) = Some trainer /\
     ATTENTION = warmup_grads toy ATTENTION trainer 7%Z /\
     7%Z = global_step_of toy trainer 7%Z /\
     half = downsample_ratio ATTENTION (toy_args half half).1.2).
Proof.
  assert (Hp : parsed_args (trace_of (main toy) 0%Z)
               = Some (toy_args half half))
    by (vm_compute; reflexivity).
  destruct (select_submatrix_arguments toy 0%Z _ _ _ MLP Hp)
    as (Hargs & Hmlp & Hopens & Hret & Hsame).
  destruct (select_submatrix_arguments toy 0%Z _ _ _ ATTENTION Hp)
    as (_ & Hatt & _).
  pose proof (Hret (toy_never_raises _ _)) as Hreturned.
  pose proof (Hopens Hreturned) as Hopened.
  pose proof (Hsame toy_keeps_step (toy_select MLP)
                tt MLP 7%Z false "out" half MLP
                (toy_select ATTENTION)
                tt ATTENTION 7%Z false "out" half ATTENTION
                (toy_select_in_run MLP) eq_refl
                (toy_select_in_run ATTENTION) eq_refl) as _.
  split; [exact Hp|]. split; [exact (toy_never_raises _ _)|].
  split; [exact toy_keeps_step|]. split; [reflexivity|].
  split; [exact Hreturned|]. split; [exact Hopened|].
  split; [exact (Hmlp Hopened eq_refl)|].
  split; [exact (Hatt Hopened eq_refl)|].
  split; [exact (toy_select_in_run MLP)|].
  split; [exact (toy_select_in_run ATTENTION)|].
  destruct (Hargs (toy_select ATTENTION) tt ATTENTION 7%Z false "out" half
              ATTENTION (toy_select_in_run ATTENTION) eq_refl)
    as (trainer & _ & Ht & Hg & Hs & _ & _ & Hr).
  exists trainer. split_and!; [exact Ht|exact Hg|exact Hs|exact Hr].
Defined.

(** C1 as stated fails: the two invocations need not receive the same
    step count.  [main] reads [trainer.state.global_step] anew before the
    second invocation; with a [select_submatrix] that advances the counter
    the MLP selection is handed the step 7 and the attention selection the
    step 8. *)
Lemma select_submatrix_same_step_counterexample :
  ~ (forall (e e' : Entry ToyU) model grads step analysis dir ratio
            model' grads' step' analysis' dir' ratio',
       e ∈ trace_of (main toy_bumping) 0%Z ->
       e' ∈ trace_of (main toy_bumping) 0%Z ->
       call e = Cselect_submatrix model grads step analysis dir ratio MLP ->
       call e' =
         Cselect_submatrix model' grads' step' analysis' dir' ratio'
           ATTENTION ->
       step' = step).
Proof.
  intros Hclaim.
  specialize (Hclaim (bumping_select MLP 7%Z) (bumping_select ATTENTION 8%Z)
                tt MLP 7%Z false "out" half
                tt ATTENTION 8%Z false "out" half
                (proj1 bumping_select_in_run) (proj2 bumping_select_in_run)
                eq_refl eq_refl).
  discriminate Hclaim.
Qed.

(** C2 on the toy run: the file is [out/selected_blocks.json] and the
    object dumped has the two keys. *)
Lemma result_is_serialized_as_json_witness :
  toy_open ∈ trace_of (main toy) 0%Z /\
  call toy_open = @Copen ToyU "out/selected_blocks.json" "w" /\
  opens (trace_of (main toy) 0%Z) = [("out/selected_blocks.json", "w")] /\
  length (dumps (trace_of (main toy) 0%Z)) = 1.
Proof.
  split; [apply toy_open_in_run|]. split; [reflexivity|].
  destruct (result_is_serialized_as_json toy 0%Z toy_open
              "out/selected_blocks.json" "w" toy_open_in_run eq_refl)
    as (sa & ta & ma & _ & _ & _ & _ & Hopens & _ & Hret).
  split; [exact Hopens|]. apply Hret. vm_compute. reflexivity.
Defined.


(** C4 on the toy run: the mode passed to [SMTTrainer] is
    [SelectSubmatrixMode]. *)
Lemma trainer_mode_is_select_submatrix_witness :
  is_returned (outcome_of (main toy) 0%Z) = true /\
  count_calls constructs_trainer (trace_of (main toy) 0%Z) = 1.
Proof.
  assert (Hret : is_returned (outcome_of (main toy) 0%Z) = true)
    by (vm_compute; reflexivity).
  split; [exact Hret|].
  destruct (trainer_mode_is_select_submatrix toy 0%Z) as (_ & _ & _ & Hone).
  exact (Hone Hret).
Defined.

Lemma colliding_dump_in_run :
  toy_dump colliding_object ∈ trace_of (main toy_colliding) 0%Z.
Proof. apply (list_elem_of_lookup_2 _ 28). vm_compute. reflexivity. Defined.

(** C5 on two runs.  On the toy run, whose keys have distinct strings,
    the MLP mapping is serialized entry for entry.  On the run whose keys
    [1] and ["1"] collide, the serialized keys are ["1"] and ["2"], in the
    order in which the strings first occur, and the value under ["1"] is
    30, that of the later key. *)
Lemma selection_is_serialized_stringified_witness :
  (toy_dump toy_object ∈ trace_of (main toy) 0%Z /\
   selection_returned MLP (trace_of (main toy) 0%Z) = Some (toy_table MLP) /\
   NoDup (ext_str toy <$> Py.keys (toy_table MLP)) /\
   Py.get toy_object (json_key MLP)
     = Some (stringified toy (toy_table MLP))) /\
  (toy_dump colliding_object ∈ trace_of (main toy_colliding) 0%Z /\
   selection_returned MLP (trace_of (main toy_colliding) 0%Z)
     = Some (colliding_table MLP) /\
   colliding_table MLP
     = [(Py.KInt 1, 10%Z); (Py.KInt 2, 20%Z)] ++ [(Py.KStr "1", 30%Z)] /\
   exists inner,
     Py.get colliding_object (json_key MLP) = Some inner /\
     Py.keys inner = ["1"; "2"] /\
     Py.get inner "1" = Some 30%Z).
Proof.
  split.
  - assert (Hsel : selection_returned MLP (trace_of (main toy) 0%Z)
                   = Some (toy_table MLP)) by (vm_compute; reflexivity).
    assert (Hnd : NoDup (ext_str toy <$> Py.keys (toy_table MLP)))
      by (apply (bool_decide_unpack _); vm_compute; exact I).
    split; [apply toy_dump_in_run|]. split; [exact Hsel|].
    split; [exact Hnd|].
    destruct (selection_is_serialized_stringified toy 0%Z
                (toy_dump toy_object) toy_object "out/selected_blocks.json"
                (",", ":") None MLP (toy_table MLP)
                toy_dump_in_run eq_refl Hsel)
      as (inner & Hget & _ & _ & _ & _ & _ & _ & _ & Hexact).
    exact (eq_trans Hget (f_equal Some (Hexact Hnd))).
  - assert (Hsel : selection_returned MLP (trace_of (main toy_colliding) 0%Z)
                   = Some (colliding_table MLP)) by (vm_compute; reflexivity).
    split; [apply colliding_dump_in_run|]. split; [exact Hsel|].
    split; [reflexivity|].
    destruct (selection_is_serialized_stringified toy_colliding 0%Z
                (toy_dump colliding_object) colliding_object
                "out/selected_blocks.json" (",", ":") None MLP
                (colliding_table MLP) colliding_dump_in_run eq_refl Hsel)
      as (inner & Hget & _ & _ & Hkeys & _ & _ & _ & Hlast & _).
    exists inner. split; [exact Hget|]. split.
    + refine (eq_trans Hkeys _). vm_compute. reflexivity.
    + refine (Hlast [(Py.KInt 1, 10%Z); (Py.KInt 2, 20%Z)] (Py.KStr "1")
                30%Z [] eq_refl _).
      intros k2 Hk2. destruct (proj1 (elem_of_nil k2) Hk2).
Defined.

(** C5 as stated fails: [select_submatrix] returns the three entries
    [1 -> 10], [2 -> 20], ["1" -> 30]; the keys [1] and ["1"] have the same
    string, and the mapping serialized is ["1" -> 30], ["2" -> 20], not the
    three entries [(str(k), v)]: the entry of key [1] is gone. *)
Lemma selection_is_serialized_exactly_counterexample :
  ~ (forall (e : Entry ToyU) obj f sep ind mt d,
       e ∈ trace_of (main toy_colliding) 0%Z ->
       call e = Cjson_dump obj f sep ind ->
       selection_returned mt (trace_of (main toy_colliding) 0%Z) = Some d ->
       Py.get obj (json_key mt) = Some (stringified toy_colliding d)).
Proof.
  intros Hclaim.
  specialize (Hclaim (toy_dump colliding_object) colliding_object
                "out/selected_blocks.json" (",", ":") None MLP
                (colliding_table MLP) colliding_dump_in_run eq_refl).
  assert (Hsel : selection_returned MLP (trace_of (main toy_colliding) 0%Z)
                 = Some (colliding_table MLP)) by (vm_compute; reflexivity).
  specialize (Hclaim Hsel). vm_compute in Hclaim. discriminate Hclaim.
Qed.

(** C6 on two runs.  With both ratios at 0.5 and collaborators that never
    raise, the run returns and has invoked [select_submatrix] for [MLP]
    and for [ATTENTION], once each.  With both ratios at [-1.0] there is
    no selection, the file is opened and two empty mappings are dumped. *)
Lemma selection_iff_ratio_nonnegative_witness :
  (parsed_args (trace_of (main toy) 0%Z) = Some (toy_args half half) /\
   never_raises toy /\
   Py.ge_zero half = true /\
   is_returned (outcome_of (main toy) 0%Z) = true /\
   (exists e, e ∈ trace_of (main toy) 0%Z /\ selects MLP (call e) = true) /\
   (exists e,
      e ∈ trace_of (main toy) 0%Z /\ selects ATTENTION (call e) = true) /\
   count_calls (selects MLP) (trace_of (main toy) 0%Z) = 1 /\
   count_calls (selects ATTENTION) (trace_of (main toy) 0%Z) = 1) /\
  (parsed_args (trace_of (main toy_skipping) 0%Z)
     = Some (toy_args minus_one minus_one) /\
   Py.lt_zero minus_one = true /\
   count_calls announces_selection (trace_of (main toy_skipping) 0%Z) = 1 /\
   (forall e, e ∈ trace_of (main toy_skipping) 0%Z ->
      selects MLP (call e) = false) /\
   opens (trace_of (main toy_skipping) 0%Z)
     = [("out/selected_blocks.json", "w")] /\
   count_calls (selects ATTENTION) (trace_of (main toy_skipping) 0%Z) = 0).
Proof.
  split.
  - assert (Hp : parsed_args (trace_of (main toy) 0%Z)
                 = Some (toy_args half half))
      by (vm_compute; reflexivity).
    destruct (selection_iff_ratio_nonnegative toy 0%Z _ _ _ MLP Hp)
      as (_ & _ & _ & _ & Hmlp & Hret).
    destruct (selection_iff_ratio_nonnegative toy 0%Z _ _ _ ATTENTION Hp)
      as (_ & _ & _ & _ & Hatt & _).
    pose proof (Hret (toy_never_raises _ _)) as Hreturned.
    destruct (Hmlp Hreturned) as (Hiff1 & Hc1 & _).
    destruct (Hatt Hreturned) as (Hiff2 & Hc2 & _).
    split; [exact Hp|]. split; [exact (toy_never_raises _ _)|].
    split; [reflexivity|]. split; [exact Hreturned|].
    split; [exact (proj1 Hiff1 eq_refl)|].
    split; [exact (proj1 Hiff2 eq_refl)|].
    split; [exact Hc1|exact Hc2].
  - assert (Hp : parsed_args (trace_of (main toy_skipping) 0%Z)
                 = Some (toy_args minus_one minus_one))
      by (vm_compute; reflexivity).
    assert (Hann : count_calls announces_selection
                     (trace_of (main toy_skipping) 0%Z) = 1)
      by (vm_compute; reflexivity).
    split; [exact Hp|]. split; [reflexivity|]. split; [exact Hann|].
    destruct (selection_iff_ratio_nonnegative toy_skipping 0%Z _ _ _ MLP Hp)
      as (_ & _ & Hneg & Hboth & _ & Hret).
    destruct (selection_iff_ratio_nonnegative toy_skipping 0%Z _ _ _
                ATTENTION Hp)
      as (_ & _ & _ & _ & Hatt & _).
    split; [exact (proj1 (Hneg eq_refl))|].
    split; [exact (proj1 (Hboth Hann eq_refl eq_refl))|].
    exact (proj1 (proj2 (Hatt (Hret (toy_never_raises _ _))))).
Defined.

Lemma toy_dump_in_save :
  toy_dump toy_object
  ∈ trace_of (save_selected_submatrix toy (toy_table MLP)
                (toy_table ATTENTION) "out/selected_blocks.json") 7%Z.
Proof. apply (list_elem_of_lookup_2 _ 1). vm_compute. reflexivity. Defined.

Lemma colliding_dump_in_save :
  toy_dump colliding_object
  ∈ trace_of (save_selected_submatrix toy (colliding_table MLP)
                (colliding_table ATTENTION) "out/selected_blocks.json") 7%Z.
Proof. apply (list_elem_of_lookup_2 _ 1). vm_compute. reflexivity. Defined.

(** C7 on two inputs: keys with distinct strings are serialized entry for
    entry; with the keys [1] and ["1"] the three entries become two. *)
Lemma keys_are_stringified_witness :
  (toy_dump toy_object
   ∈ trace_of (save_selected_submatrix toy (toy_table MLP)
                 (toy_table ATTENTION) "out/selected_blocks.json") 7%Z /\
   NoDup (ext_str toy <$> Py.keys (toy_table MLP)) /\
   Py.get toy_object "selected_mlp_submatrix"
     = Some [("3", 30%Z); ("1", 10%Z)]) /\
  (toy_dump colliding_object
   ∈ trace_of (save_selected_submatrix toy (colliding_table MLP)
                 (colliding_table ATTENTION) "out/selected_blocks.json") 7%Z /\
   Py.KInt 1 <> Py.KStr "1" /\
   ext_str toy (Py.KInt 1) = ext_str toy (Py.KStr "1") /\
   exists inner,
     Py.get colliding_object "selected_mlp_submatrix" = Some inner /\
     length inner < length (colliding_table MLP)).
Proof.
  split.
  - assert (Hnd : NoDup (ext_str toy <$> Py.keys (toy_table MLP)))
      by (apply (bool_decide_unpack _); vm_compute; exact I).
    split; [apply toy_dump_in_save|]. split; [exact Hnd|].
    destruct (keys_are_stringified toy (toy_table MLP) (toy_table ATTENTION)
                "out/selected_blocks.json" 7%Z (toy_dump toy_object)
                toy_object "out/selected_blocks.json" (",", ":") None
                "selected_mlp_submatrix" (toy_table MLP)
                toy_dump_in_save eq_refl ltac:(left))
      as (inner & Hget & Hexact & _).
    exact (eq_trans Hget (f_equal Some (proj1 (Hexact Hnd)))).
  - split; [apply colliding_dump_in_save|]. split; [discriminate|].
    split; [reflexivity|].
    destruct (keys_are_stringified toy (colliding_table MLP)
                (colliding_table ATTENTION)
                "out/selected_blocks.json" 7%Z (toy_dump colliding_object)
                colliding_object "out/selected_blocks.json" (",", ":") None
                "selected_mlp_submatrix" (colliding_table MLP)
                colliding_dump_in_save eq_refl ltac:(left))
      as (inner & Hget & _ & Hcollapse).
    exists inner. split; [exact Hget|].
    refine (proj2 (Hcollapse (Py.KInt 1) 10%Z (Py.KStr "1") 30%Z _ _ _ _)).
    + apply (list_elem_of_lookup_2 _ 0). reflexivity.
    + apply (list_elem_of_lookup_2 _ 2). reflexivity.
    + discriminate.
    + reflexivity.
Defined.

(** C8 on the toy store: the two dictionaries are as they were. *)
Lemma arguments_are_not_mutated_witness :
  toy_store !! 1%positive = Some (@Heap.as_object ToyU (toy_table MLP)) /\
  toy_store !! 2%positive = Some (@Heap.as_object ToyU (toy_table ATTENTION)) /\
  (Heap.save_selected_submatrix toy 1%positive 2%positive
     "out/selected_blocks.json" toy_store 7%Z).1 !! 1%positive
  = Some (@Heap.as_object ToyU (toy_table MLP)) /\
  (Heap.save_selected_submatrix toy 1%positive 2%positive
     "out/selected_blocks.json" toy_store 7%Z).1 !! 2%positive
  = Some (@Heap.as_object ToyU (toy_table ATTENTION)).
Proof.
  assert (H1 : toy_store !! 1%positive
               = Some (@Heap.as_object ToyU (toy_table MLP)))
    by (vm_compute; reflexivity).
  assert (H2 : toy_store !! 2%positive
               = Some (@Heap.as_object ToyU (toy_table ATTENTION)))
    by (vm_compute; reflexivity).
  split; [exact H1|]. split; [exact H2|].
  destruct (arguments_are_not_mutated toy toy_store 7%Z 1%positive 2%positive
              "out/selected_blocks.json" _ _ H1 H2) as (Hm & Ha & _ & _).
  split; [exact Hm|exact Ha].
Defined.

Example heap_run_dumps :
  dumps (Heap.save_selected_submatrix toy 1%positive 2%positive
           "out/selected_blocks.json" toy_store 7%Z).2.1.2
  = [(toy_object, "out/selected_blocks.json", (",", ":"), None)].
Proof. vm_compute. reflexivity. Qed.

(** ** The further properties on the toy runs *)

Example nan_fails_the_test :
  Py.ge_zero nan = false /\ Py.lt_zero nan = false /\
  Py.ge_zero (S754_zero true) = true /\
  Py.ge_zero (S754_infinity false) = true.
Proof. repeat split. Qed.

Example dump_raises_run :
  outcome_of (main toy_dump_raises) 0%Z = @Raised ToyU unit "TypeError" /\
  closes (trace_of (main toy_dump_raises) 0%Z) = ["out/selected_blocks.json"] /\
  saved_logs (trace_of (main toy_dump_raises) 0%Z) = [] /\
  count_calls stops_profile (trace_of (main toy_dump_raises) 0%Z) = 0.
Proof. vm_compute. repeat split. Qed.

Example select_raises_run :
  outcome_of (main toy_select_raises) 0%Z = @Raised ToyU unit "RuntimeError" /\
  opens (trace_of (main toy_select_raises) 0%Z) = [] /\
  selected_types (trace_of (main toy_select_raises) 0%Z) = [MLP].
Proof. vm_compute. repeat split. Qed.

Lemma toy_saved_in_run :
  "out/selected_blocks.json" ∈ saved_logs (trace_of (main toy) 0%Z).
Proof. apply (list_elem_of_lookup_2 _ 0). vm_compute. reflexivity. Defined.

Lemma toy_opens_in_run :
  ("out/selected_blocks.json", "w") ∈ opens (trace_of (main toy) 0%Z).
Proof. apply (list_elem_of_lookup_2 _ 0). vm_compute. reflexivity. Defined.

Lemma toy_dumps_in_run :
  (toy_object, "out/selected_blocks.json", (",", ":"), None)
  ∈ dumps (trace_of (main toy) 0%Z).
Proof. apply (list_elem_of_lookup_2 _ 0). vm_compute. reflexivity. Defined.

Lemma toy_construction_in_run :
  toy_construction ∈ trace_of (main toy) 0%Z.
Proof. apply (list_elem_of_lookup_2 _ 16). vm_compute. reflexivity. Defined.

Lemma toy_log_mlp_in_run : toy_log_mlp ∈ trace_of (main toy) 0%Z.
Proof. apply (list_elem_of_lookup_2 _ 24). vm_compute. reflexivity. Defined.

Lemma toy_metrics_in_run : toy_metrics ∈ trace_of (main toy) 0%Z.
Proof. apply (list_elem_of_lookup_2 _ 32). vm_compute. reflexivity. Defined.

(** X1 on two runs: with a [json.dump] that raises [TypeError], [main]
    raises it and some call of the trace has raised it; the toy run
    returns and all its calls returned. *)
Lemma exceptions_propagate_witness :
  outcome_of (main toy_dump_raises) 0%Z = @Raised ToyU unit "TypeError" /\
  (exists e, e ∈ trace_of (main toy_dump_raises) 0%Z /\
             outcome e = @Raised ToyU _ "TypeError") /\
  is_returned (outcome_of (main toy) 0%Z) = true /\
  (forall e, e ∈ trace_of (main toy) 0%Z -> is_returned (outcome e) = true).
Proof.
  assert (Hraise : outcome_of (main toy_dump_raises) 0%Z
                   = @Raised ToyU unit "TypeError")
    by (vm_compute; reflexivity).
  assert (Hret : is_returned (outcome_of (main toy) 0%Z) = true)
    by (vm_compute; reflexivity).
  split; [exact Hraise|].
  split;
    [exact (proj1 (proj2 (exceptions_propagate toy_dump_raises 0%Z))
              "TypeError" Hraise)|].
  split; [exact Hret|].
  exact (proj1 (proj1 (exceptions_propagate toy 0%Z)) Hret).
Defined.

(** X2 on two runs: the file is closed when [json.dump] raises, and the
    file written to in the toy run is the one opened. *)
Lemma opened_file_is_closed_witness :
  closes (trace_of (main toy_dump_raises) 0%Z) = ["out/selected_blocks.json"] /\
  (toy_object, "out/selected_blocks.json", (",", ":"), None)
    ∈ dumps (trace_of (main toy) 0%Z) /\
  opened_files (trace_of (main toy) 0%Z) = ["out/selected_blocks.json"].
Proof.
  split.
  - rewrite (proj1 (opened_file_is_closed toy_dump_raises 0%Z)).
    vm_compute. reflexivity.
  - split; [exact toy_dumps_in_run|].
    exact (proj2 (proj2 (opened_file_is_closed toy 0%Z))
             _ _ _ _ toy_dumps_in_run).
Defined.

(** X3 with a [json.dump] that raises: the path is opened, the file is
    closed, and the call raises the exception of [json.dump]. *)
Lemma save_closes_its_file_witness :
  opens (trace_of (save_selected_submatrix toy_dump_raises (toy_table MLP)
                     (toy_table ATTENTION) "out/selected_blocks.json") 7%Z)
    = [("out/selected_blocks.json", "w")] /\
  closes (trace_of (save_selected_submatrix toy_dump_raises (toy_table MLP)
                      (toy_table ATTENTION) "out/selected_blocks.json") 7%Z)
    = ["out/selected_blocks.json"] /\
  outcome_of (save_selected_submatrix toy_dump_raises (toy_table MLP)
                (toy_table ATTENTION) "out/selected_blocks.json") 7%Z
    = @Raised ToyU unit "TypeError".
Proof.
  destruct (save_closes_its_file toy_dump_raises (toy_table MLP)
              (toy_table ATTENTION) "out/selected_blocks.json" 7%Z)
    as (Hopen & Hclose & _).
  split; [exact Hopen|]. split.
  - rewrite Hclose. vm_compute. reflexivity.
  - vm_compute. reflexivity.
Defined.

(** X4 on the toy run: the path announced is the path opened. *)
Lemma saved_log_is_truthful_witness :
  "out/selected_blocks.json" ∈ saved_logs (trace_of (main toy) 0%Z) /\
  opens (trace_of (main toy) 0%Z) = [("out/selected_blocks.json", "w")] /\
  length (dumps (trace_of (main toy) 0%Z)) = 1.
Proof.
  split; [exact toy_saved_in_run|].
  destruct (saved_log_is_truthful toy 0%Z _ toy_saved_in_run)
    as (_ & Hopen & _ & Hdumps & _).
  split; [exact Hopen|exact Hdumps].
Defined.

(** X5 on the toy run: the file is opened; training was run once, and
    the MLP selection, made before the file was opened, returned. *)
Lemma file_opened_after_selections_witness :
  ("out/selected_blocks.json", "w") ∈ opens (trace_of (main toy) 0%Z) /\
  count_calls trains (trace_of (main toy) 0%Z) = 1 /\
  toy_select MLP ∈ trace_of (main toy) 0%Z /\
  is_returned (outcome (toy_select MLP)) = true.
Proof.
  split; [exact toy_opens_in_run|].
  destruct (file_opened_after_selections toy 0%Z _ _ toy_opens_in_run)
    as (Htrain & _ & Hsel & _).
  split; [exact Htrain|]. split; [exact (toy_select_in_run MLP)|].
  exact (Hsel (toy_select MLP) (toy_select_in_run MLP) (or_intror eq_refl)).
Defined.

(** X6 on the toy run, which returns: the profiler is started, stopped and
    reported once. *)
Lemma profiler_lifecycle_witness :
  is_returned (outcome_of (main toy) 0%Z) = true /\
  count_calls starts_profile (trace_of (main toy) 0%Z) = 1 /\
  count_calls stops_profile (trace_of (main toy) 0%Z) = 1 /\
  count_calls logs_metrics (trace_of (main toy) 0%Z) = 1.
Proof.
  assert (Hret : is_returned (outcome_of (main toy) 0%Z) = true)
    by (vm_compute; reflexivity).
  split; [exact Hret|].
  destruct (profiler_lifecycle toy 0%Z) as (_ & _ & _ & _ & _ & _ & Hall).
  exact (Hall Hret).
Defined.

(** X7 on the toy run: the trainer is built over the datasets
    [datasets["train"]] and [datasets["test"]]. *)
Lemma trainer_built_from_components_witness :
  toy_construction ∈ trace_of (main toy) 0%Z /\
  exists script_args model_args datasets callback,
    parsed_args (trace_of (main toy) 0%Z)
      = Some (script_args, (toy_args half half).1.2, model_args) /\
    [tt] = [callback] /\
    (@Cgetitem ToyU datasets "train", @RDataset ToyU "train")
      ∈ returned (trace_of (main toy) 0%Z) /\
    (@Cgetitem ToyU datasets "test", @RDataset ToyU "test")
      ∈ returned (trace_of (main toy) 0%Z).
Proof.
  split; [exact toy_construction_in_run|].
  destruct (trainer_built_from_components toy 0%Z toy_construction
              _ _ _ _ _ _ _ toy_construction_in_run eq_refl)
    as (sa & ma & ds & cb & Hp & Hcb & _ & _ & _ & Htr & Hev & _).
  exists sa, ma, ds, cb. repeat split; assumption.
Defined.

(** X8 on the colliding keys [1] and ["1"]: the value under ["1"] is 30,
    that of the later key. *)
Lemma last_value_wins_witness :
  toy_dump colliding_object
  ∈ trace_of (save_selected_submatrix toy (colliding_table MLP)
                (colliding_table ATTENTION) "out/selected_blocks.json") 7%Z /\
  colliding_table MLP
    = [(Py.KInt 1, 10%Z); (Py.KInt 2, 20%Z)] ++ [(Py.KStr "1", 30%Z)] /\
  exists inner,
    Py.get colliding_object "selected_mlp_submatrix" = Some inner /\
    Py.get inner "1" = Some 30%Z.
Proof.
  split; [exact colliding_dump_in_save|]. split; [reflexivity|].
  refine (last_value_wins toy (colliding_table MLP)
            (colliding_table ATTENTION) "out/selected_blocks.json" 7%Z
            (toy_dump colliding_object) colliding_object
            "out/selected_blocks.json" (",", ":") None
            "selected_mlp_submatrix" (colliding_table MLP)
            [(Py.KInt 1, 10%Z); (Py.KInt 2, 20%Z)] []
            (Py.KStr "1") 30%Z colliding_dump_in_save eq_refl _ eq_refl _).
  - left.
  - intros k2 Hk2. destruct (proj1 (elem_of_nil k2) Hk2).
Defined.

(** X9 on the toy run: two keys, and the keys ["3"] and ["1"] of the MLP
    mapping are distinct. *)
Lemma serialized_keys_distinct_witness :
  (toy_object, "out/selected_blocks.json", (",", ":"), None)
    ∈ dumps (trace_of (main toy) 0%Z) /\
  Py.keys toy_object
    = ["selected_mlp_submatrix"; "selected_attention_submatrix"] /\
  Py.wf [("3", 30%Z); ("1", 10%Z)].
Proof.
  split; [exact toy_dumps_in_run|].
  destruct (serialized_keys_distinct toy 0%Z _ _ _ _ toy_dumps_in_run)
    as [Hkeys Hwf].
  split; [exact Hkeys|].
  apply (Hwf "selected_mlp_submatrix"). left.
Defined.

(** X10 on two runs: with both ratios NaN nothing is selected and the MLP
    key maps to the empty mapping; with the ratios [-0.0] and [+inf] both
    selections are made. *)
Lemma ratio_edge_values_witness :
  (parsed_args (trace_of (main toy_nan) 0%Z) = Some (toy_args nan nan) /\
   count_calls (selects MLP) (trace_of (main toy_nan) 0%Z) = 0 /\
   (empty_object, "out/selected_blocks.json", (",", ":"), None)
     ∈ dumps (trace_of (main toy_nan) 0%Z) /\
   Py.get empty_object "selected_mlp_submatrix" = Some []) /\
  (parsed_args (trace_of (main toy_edges) 0%Z)
     = Some (toy_args (S754_zero true) (S754_infinity false)) /\
   opens (trace_of (main toy_edges) 0%Z) <> [] /\
   count_calls (selects MLP) (trace_of (main toy_edges) 0%Z) = 1 /\
   count_calls (selects ATTENTION) (trace_of (main toy_edges) 0%Z) = 1).
Proof.
  split.
  - assert (Hp : parsed_args (trace_of (main toy_nan) 0%Z)
                 = Some (toy_args nan nan))
      by (vm_compute; reflexivity).
    assert (Hd : (empty_object, "out/selected_blocks.json", (",", ":"),
                  @None nat) ∈ dumps (trace_of (main toy_nan) 0%Z))
      by (apply (list_elem_of_lookup_2 _ 0); vm_compute; reflexivity).
    destruct (ratio_edge_values toy_nan 0%Z _ _ _ MLP Hp) as [Hnan _].
    destruct (Hnan eq_refl) as [Hcount Hget].
    split; [exact Hp|]. split; [exact Hcount|]. split; [exact Hd|].
    exact (Hget _ _ _ _ Hd).
  - assert (Hp : parsed_args (trace_of (main toy_edges) 0%Z)
                 = Some (toy_args (S754_zero true) (S754_infinity false)))
      by (vm_compute; reflexivity).
    assert (Ho : opens (trace_of (main toy_edges) 0%Z) <> [])
      by (vm_compute; discriminate).
    split; [exact Hp|]. split; [exact Ho|]. split.
    + exact (proj2 (ratio_edge_values toy_edges 0%Z _ _ _ MLP Hp)
               (or_introl eq_refl) Ho).
    + exact (proj2 (ratio_edge_values toy_edges 0%Z _ _ _ ATTENTION Hp)
               (or_intror eq_refl) Ho).
Defined.

(** X11 on the toy run: the MLP selection, then the attention
    selection. *)
Lemma selection_order_witness :
  parsed_args (trace_of (main toy) 0%Z) = Some (toy_args half half) /\
  opens (trace_of (main toy) 0%Z) <> [] /\
  selected_types (trace_of (main toy) 0%Z) = [MLP; ATTENTION].
Proof.
  assert (Hp : parsed_args (trace_of (main toy) 0%Z)
               = Some (toy_args half half))
    by (vm_compute; reflexivity).
  assert (Ho : opens (trace_of (main toy) 0%Z) <> [])
    by (vm_compute; discriminate).
  split; [exact Hp|]. split; [exact Ho|].
  exact (proj2 (selection_order toy 0%Z _ _ _ Hp) Ho).
Defined.

(** X12 on the toy run: the report is handed the step time read after
    training, 7, and memory statistics are taken twice. *)
Lemma training_is_reported_witness :
  toy_metrics ∈ trace_of (main toy) 0%Z /\
  (exists trainer,
     built_trainer (trace_of (main toy) 0%Z) = Some trainer /\
     7%Z = attr_sum_training_step_time toy trainer 7%Z) /\
  count_calls announces_selection (trace_of (main toy) 0%Z) = 1 /\
  count_calls is_memory_stats (trace_of (main toy) 0%Z) = 2.
Proof.
  assert (Hann : count_calls announces_selection (trace_of (main toy) 0%Z)
                 = 1)
    by (vm_compute; reflexivity).
  destruct (training_is_reported toy 0%Z) as (_ & Hmetrics & _ & Hmem).
  split; [exact toy_metrics_in_run|]. split.
  - destruct (Hmetrics toy_metrics _ _ _ toy_metrics_in_run eq_refl)
      as (trainer & Hb & _ & Htime & _).
    exists trainer. split; [exact Hb|exact Htime].
  - split; [exact Hann|exact (Hmem Hann)].
Defined.

(** X13 on the toy run: the MLP line shows the mapping with its integer
    keys, as [select_submatrix] returned it. *)
Lemma logs_report_values_witness :
  toy_log_mlp ∈ trace_of (main toy) 0%Z /\
  toy_table MLP = selected MLP (trace_of (main toy) 0%Z).
Proof.
  split; [exact toy_log_mlp_in_run|].
  exact (logs_report_values toy 0%Z toy_log_mlp _ toy_log_mlp_in_run eq_refl).
Defined.
